(** * Bandwidth monitoring tool: the monitored-data core

    A shallow embedding of the data core of
    [Accurate-Cyber-Defense-Bandwidth-Monitoring-Tool.py]:

    - [DatabaseManager.add_bandwidth_log]   (best-effort persistence),
    - [NetworkMonitor]                      (registry, windows, sampling loop),
    - [BandwidthAnalyzer]                   (total / average / peak / trend),
    - [SecurityAlertSystem]                 (threshold alerts),
    - [CyberSecurityMonitorGUI]             (toggle, clear and export commands).

    Python objects that are shared and mutated (the monitor, the logging
    module, the SQLite table, the tkinter variables) are the fields of one
    record [World]; every method is a function from [World] to [World].
    What the environment decides (the random sample, whether SQLite or the
    file system fails, the clock, the scheduling of the sampling thread) is
    an argument of the function that consumes it. *)

From Stdlib Require Import ZArith QArith Ascii.
From stdpp Require Import gmap strings list fin_maps pretty.

Local Open Scope string_scope.
Local Open Scope Z_scope.
Local Open Scope list_scope.

(** ** Python containers *)

(** [collections.deque(maxlen=n).append(x)]: the item is added on the right
    and, when the deque has grown beyond [maxlen], one item is discarded on
    the left. The head of the list is the oldest item. *)
Definition deque_append (maxlen : nat) (d : list Z) (x : Z) : list Z :=
  let d' := d ++ [x] in
  if decide (maxlen < length d')%nat then drop 1 d' else d'.

(** The same for a deque of any item type (the alert ring). *)
Definition ring_append {A : Type} (maxlen : nat) (d : list A) (x : A) : list A :=
  let d' := d ++ [x] in
  if decide (maxlen < length d')%nat then drop 1 d' else d'.

(** The [n] most recent items of a sequence, oldest first. *)
Definition lastn {A : Type} (n : nat) (l : list A) : list A :=
  drop (length l - n) l.

(** [sum(d)] on integers: starts from [0] and adds from the left. *)
Definition py_sum (d : list Z) : Z := foldl Z.add 0 d.

(** [max(d)] for a deque whose first item is [x] and whose rest is [d]. *)
Definition py_max (x : Z) (d : list Z) : Z := foldl Z.max x d.

(** The capacity written in [NetworkMonitor.__init__] and
    [SecurityAlertSystem.__init__]. *)
Definition MAXLEN : nat := 100.

(** One value of [bandwidth_data] or [packet_data]:
    [{"sent": deque(maxlen=100), "received": deque(maxlen=100)}]. *)
Record window : Type := Window { sent : list Z; received : list Z }.

(** The default factory of both [defaultdict]s. *)
Definition new_window : window := Window [] [].

(** [d[k]] on a [defaultdict]: a missing key is first bound to the default. *)
Definition defaultdict_getitem (k : string) (d : gmap string window)
  : window * gmap string window :=
  match d !! k with
  | Some v => (v, d)
  | None => (new_window, <[k := new_window]> d)
  end.

(** [d.get(k, {"sent": deque(), "received": deque()})]: no insertion. *)
Definition dict_get (k : string) (d : gmap string window) : window :=
  default (Window [] []) (d !! k).

(** ** Exceptions, logging, environment *)

(** An instance of a subclass of [Exception]; [exn_msg] is [str(e)]. *)
Record exn : Type := Exn { exn_class : string; exn_msg : string }.

Inductive result (A : Type) : Type :=
| Returns (a : A)
| Raises (e : exn).
Arguments Returns {A} a.
Arguments Raises {A} e.

Inductive level : Type := INFO | WARNING | ERROR.

(** A record handed to the [logging] module. *)
Definition log_record : Type := (level * string)%type.

(** The call of [sqlite3] at which the durable write fails. *)
Inductive sqlite_stage : Type := Connect | Execute | Commit | Close.

(** What SQLite does with one append: nothing goes wrong ([None]) or the
    given call raises the given exception. *)
Definition sqlite_fault : Type := option (sqlite_stage * exn).

(** A row of the table [bandwidth_logs] (the id and the timestamp are
    filled in by SQLite). *)
Record log_row : Type := LogRow {
  row_ip : string;
  row_bytes_sent : Z;
  row_bytes_received : Z;
  row_packets_sent : Z;
  row_packets_received : Z;
  row_connection_type : string
}.

(** The value returned by [simulate_ip_traffic]:
    bytes sent, bytes received, packets sent, packets received. *)
Record sample : Type := Sample {
  bytes_sent : Z;
  bytes_received : Z;
  packets_sent : Z;
  packets_received : Z
}.

(** An item put on [data_queue]. *)
Record queue_item : Type := QueueItem {
  q_ip : string;
  q_sample : sample;
  q_timestamp : Z
}.

(** Where a thread running [_monitor_loop] stands. *)
Inductive pc : Type :=
| AtWhile                      (* about to test [while self.monitoring] *)
| InFor (rest : list string)   (* inside the [for], these targets are left *)
| Sleeping                     (* in [time.sleep] *)
| Finished.                    (* the [while] test failed, the thread ended *)

(** An alert built by [create_alert]. *)
Record alert : Type := Alert {
  alert_timestamp : Z;
  alert_ip_address : string;
  alert_type : string;
  alert_message : string;
  alert_severity : string
}.

(** [SecurityAlertSystem.alert_thresholds]. *)
Record thresholds : Type := Thresholds {
  high_bandwidth : Z;
  suspicious_packets : Z;
  rapid_connections : Z
}.

(** A [messagebox] call. *)
Inductive dialog : Type :=
| ShowWarning (title msg : string)
| ShowError (title msg : string)
| ShowInfo (title msg : string).

(** One entry of the exported mapping. *)
Record export_entry : Type := ExportEntry {
  bandwidth_sent : list Z;
  bandwidth_received : list Z;
  exp_packets_sent : list Z;
  exp_packets_received : list Z
}.

(** The document handed to [json.dump]: a dict in insertion order. *)
Definition export_doc : Type := list (string * export_entry).

(** What the file system does with [open(filename, 'w')] and the write:
    both succeed, or an exception is raised (what a failed write may leave
    on disk is not recorded). *)
Inductive fs_outcome : Type :=
| FsOk
| FsError (e : exn).

(** ** The shared state *)

Record World : Type := MkWorld {
  (* NetworkMonitor *)
  monitoring : bool;
  monitored_ips : gset string;
  bandwidth_data : gmap string window;
  packet_data : gmap string window;
  data_queue : list queue_item;
  (* DatabaseManager: the table bandwidth_logs *)
  bandwidth_logs : list log_row;
  (* the logging module *)
  logging : list log_record;
  (* the threads started by start_monitoring *)
  threads : list pc;
  (* SecurityAlertSystem *)
  alert_thresholds : thresholds;
  alerts : list alert;
  (* CyberSecurityMonitorGUI *)
  monitoring_active : bool;
  status_var : string;
  dialogs : list dialog;
  files : gmap string export_doc
}.

Definition set_monitoring (b : bool) (w : World) : World :=
  MkWorld b (monitored_ips w) (bandwidth_data w) (packet_data w) (data_queue w)
    (bandwidth_logs w) (logging w) (threads w) (alert_thresholds w) (alerts w)
    (monitoring_active w) (status_var w) (dialogs w) (files w).

Definition set_monitored_ips (s : gset string) (w : World) : World :=
  MkWorld (monitoring w) s (bandwidth_data w) (packet_data w) (data_queue w)
    (bandwidth_logs w) (logging w) (threads w) (alert_thresholds w) (alerts w)
    (monitoring_active w) (status_var w) (dialogs w) (files w).

Definition set_bandwidth_data (d : gmap string window) (w : World) : World :=
  MkWorld (monitoring w) (monitored_ips w) d (packet_data w) (data_queue w)
    (bandwidth_logs w) (logging w) (threads w) (alert_thresholds w) (alerts w)
    (monitoring_active w) (status_var w) (dialogs w) (files w).

Definition set_packet_data (d : gmap string window) (w : World) : World :=
  MkWorld (monitoring w) (monitored_ips w) (bandwidth_data w) d (data_queue w)
    (bandwidth_logs w) (logging w) (threads w) (alert_thresholds w) (alerts w)
    (monitoring_active w) (status_var w) (dialogs w) (files w).

Definition set_data_queue (q : list queue_item) (w : World) : World :=
  MkWorld (monitoring w) (monitored_ips w) (bandwidth_data w) (packet_data w) q
    (bandwidth_logs w) (logging w) (threads w) (alert_thresholds w) (alerts w)
    (monitoring_active w) (status_var w) (dialogs w) (files w).

Definition set_bandwidth_logs (t : list log_row) (w : World) : World :=
  MkWorld (monitoring w) (monitored_ips w) (bandwidth_data w) (packet_data w)
    (data_queue w) t (logging w) (threads w) (alert_thresholds w) (alerts w)
    (monitoring_active w) (status_var w) (dialogs w) (files w).

Definition set_logging (l : list log_record) (w : World) : World :=
  MkWorld (monitoring w) (monitored_ips w) (bandwidth_data w) (packet_data w)
    (data_queue w) (bandwidth_logs w) l (threads w) (alert_thresholds w) (alerts w)
    (monitoring_active w) (status_var w) (dialogs w) (files w).

Definition set_threads (t : list pc) (w : World) : World :=
  MkWorld (monitoring w) (monitored_ips w) (bandwidth_data w) (packet_data w)
    (data_queue w) (bandwidth_logs w) (logging w) t (alert_thresholds w) (alerts w)
    (monitoring_active w) (status_var w) (dialogs w) (files w).

Definition set_alert_thresholds (t : thresholds) (w : World) : World :=
  MkWorld (monitoring w) (monitored_ips w) (bandwidth_data w) (packet_data w)
    (data_queue w) (bandwidth_logs w) (logging w) (threads w) t (alerts w)
    (monitoring_active w) (status_var w) (dialogs w) (files w).

Definition set_alerts (a : list alert) (w : World) : World :=
  MkWorld (monitoring w) (monitored_ips w) (bandwidth_data w) (packet_data w)
    (data_queue w) (bandwidth_logs w) (logging w) (threads w) (alert_thresholds w) a
    (monitoring_active w) (status_var w) (dialogs w) (files w).

Definition set_monitoring_active (b : bool) (w : World) : World :=
  MkWorld (monitoring w) (monitored_ips w) (bandwidth_data w) (packet_data w)
    (data_queue w) (bandwidth_logs w) (logging w) (threads w) (alert_thresholds w)
    (alerts w) b (status_var w) (dialogs w) (files w).

Definition set_status_var (s : string) (w : World) : World :=
  MkWorld (monitoring w) (monitored_ips w) (bandwidth_data w) (packet_data w)
    (data_queue w) (bandwidth_logs w) (logging w) (threads w) (alert_thresholds w)
    (alerts w) (monitoring_active w) s (dialogs w) (files w).

Definition set_dialogs (d : list dialog) (w : World) : World :=
  MkWorld (monitoring w) (monitored_ips w) (bandwidth_data w) (packet_data w)
    (data_queue w) (bandwidth_logs w) (logging w) (threads w) (alert_thresholds w)
    (alerts w) (monitoring_active w) (status_var w) d (files w).

Definition set_files (f : gmap string export_doc) (w : World) : World :=
  MkWorld (monitoring w) (monitored_ips w) (bandwidth_data w) (packet_data w)
    (data_queue w) (bandwidth_logs w) (logging w) (threads w) (alert_thresholds w)
    (alerts w) (monitoring_active w) (status_var w) (dialogs w) f.

(** [logging.info], [logging.warning], [logging.error]. *)
Definition logging_info (msg : string) (w : World) : World :=
  set_logging (logging w ++ [(INFO, msg)]) w.
Definition logging_warning (msg : string) (w : World) : World :=
  set_logging (logging w ++ [(WARNING, msg)]) w.
Definition logging_error (msg : string) (w : World) : World :=
  set_logging (logging w ++ [(ERROR, msg)]) w.

(** [messagebox.showwarning] and the like. *)
Definition show (d : dialog) (w : World) : World :=
  set_dialogs (dialogs w ++ [d]) w.

(** The state once the objects are constructed: [NetworkMonitor.__init__]
    (whose [DatabaseManager] has created its tables and logged it), a
    [SecurityAlertSystem] on that monitor, and the variables of the GUI. *)
Definition init : World :=
  MkWorld false ∅ ∅ ∅ [] [] [(INFO, "Database initialized successfully")] []
    (Thresholds (1024 * 1024) 1000 50) []
    false "Ready" [] ∅.

(** ** DatabaseManager *)

(** The body of the [try] in [add_bandwidth_log]: connect, execute the
    INSERT, commit, close. The row is in the table once [commit] has
    returned; a call that raises ends the body there. *)
Definition sqlite_insert (fault : sqlite_fault) (row : log_row) (table : list log_row)
  : result unit * list log_row :=
  match fault with
  | None => (Returns (), table ++ [row])
  | Some (Connect, e) => (Raises e, table)
  | Some (Execute, e) => (Raises e, table)
  | Some (Commit, e) => (Raises e, table)
  | Some (Close, e) => (Raises e, table ++ [row])
  end.

(** [DatabaseManager.add_bandwidth_log]: [try: ... except Exception as e:
    logging.error(...)]. The result says whether the method returns to its
    caller or raises. *)
Definition add_bandwidth_log (fault : sqlite_fault) (row : log_row) (w : World)
  : result unit * World :=
  match sqlite_insert fault row (bandwidth_logs w) with
  | (Returns _, table) => (Returns (), set_bandwidth_logs table w)
  | (Raises e, table) =>
      (Returns (),
       logging_error ("Error adding bandwidth log: " +:+ exn_msg e)
         (set_bandwidth_logs table w))
  end.

(** ** NetworkMonitor *)

Section Monitor.

(** [ipaddress.ip_address] of the standard library, on a string: [true] when
    it returns an address object, [false] when it raises [ValueError]. *)
Variable ip_address : string → bool.

(** [NetworkMonitor.add_ip_to_monitor]. *)
Definition add_ip_to_monitor (ip : string) (w : World) : bool * World :=
  if ip_address ip then
    (true,
     logging_info ("Added IP " +:+ ip +:+ " to monitoring list")
       (set_monitored_ips ({[ip]} ∪ monitored_ips w) w))
  else
    (false, logging_error ("Invalid IP address: " +:+ ip) w).

(** [NetworkMonitor.remove_ip_from_monitor]. *)
Definition remove_ip_from_monitor (ip : string) (w : World) : World :=
  logging_info ("Removed IP " +:+ ip +:+ " from monitoring list")
    (set_monitored_ips (monitored_ips w ∖ {[ip]}) w).

(** [NetworkMonitor.start_monitoring]: sets the flag and starts a new
    thread on [_monitor_loop]. *)
Definition start_monitoring (w : World) : World :=
  logging_info "Network monitoring started"
    (set_threads (threads w ++ [AtWhile]) (set_monitoring true w)).

(** [NetworkMonitor.stop_monitoring]. *)
Definition stop_monitoring (w : World) : World :=
  logging_info "Network monitoring stopped" (set_monitoring false w).

(** Lines 212-215 of [_monitor_loop]: the four appends.  Every deque in the
    two dicts was made by the default factory, with [maxlen=100]. *)
Definition store_sample (ip : string) (s : sample) (w : World) : World :=
  let '(win, bd) := defaultdict_getitem ip (bandwidth_data w) in
  let bd := <[ip := Window (deque_append MAXLEN (sent win) (bytes_sent s)) (received win)]> bd in
  let '(win, bd) := defaultdict_getitem ip bd in
  let bd := <[ip := Window (sent win) (deque_append MAXLEN (received win) (bytes_received s))]> bd in
  let '(pwin, pd) := defaultdict_getitem ip (packet_data w) in
  let pd := <[ip := Window (deque_append MAXLEN (sent pwin) (packets_sent s)) (received pwin)]> pd in
  let '(pwin, pd) := defaultdict_getitem ip pd in
  let pd := <[ip := Window (sent pwin) (deque_append MAXLEN (received pwin) (packets_received s))]> pd in
  set_packet_data pd (set_bandwidth_data bd w).

(** The body of the [for] in [_monitor_loop] for one target: [s] is what
    [simulate_ip_traffic] returned, [now] is [datetime.now()]. *)
Definition loop_body (ip : string) (s : sample) (fault : sqlite_fault) (now : Z)
    (w : World) : result unit * World :=
  let w := store_sample ip s w in
  match add_bandwidth_log fault
          (LogRow ip (bytes_sent s) (bytes_received s) (packets_sent s)
             (packets_received s) "ethernet") w with
  | (Raises e, w) => (Raises e, w)
  | (Returns _, w) =>
      (Returns (), set_data_queue (data_queue w ++ [QueueItem ip s now]) w)
  end.

(** One scheduling step of a thread that runs [_monitor_loop]. The [for]
    iterates over [self.monitored_ips.copy()], taken when the pass starts. *)
Definition monitor_loop_step (p : pc) (s : sample) (fault : sqlite_fault) (now : Z)
    (w : World) : pc * World :=
  match p with
  | AtWhile =>
      if monitoring w then (InFor (elements (monitored_ips w)), w)
      else (Finished, w)
  | InFor (ip :: rest) =>
      match loop_body ip s fault now w with
      | (Returns _, w) => (InFor rest, w)
      | (Raises e, w) =>
          (Sleeping, logging_error ("Error in monitoring loop: " +:+ exn_msg e) w)
      end
  | InFor [] => (Sleeping, w)
  | Sleeping => (AtWhile, w)
  | Finished => (Finished, w)
  end.

(** ** SecurityAlertSystem *)

Definition severity_map : gmap string string :=
  list_to_map [("HIGH_BANDWIDTH_OUT", "MEDIUM"); ("HIGH_BANDWIDTH_IN", "MEDIUM");
               ("SUSPICIOUS_PACKETS", "HIGH"); ("RAPID_CONNECTIONS", "HIGH")].

(** [SecurityAlertSystem.get_alert_severity]. *)
Definition get_alert_severity (alert_type : string) : string :=
  default "LOW" (severity_map !! alert_type).

(** The alert record built by [create_alert]. *)
Definition make_alert (now : Z) (ip alert_type message : string) : alert :=
  Alert now ip alert_type message (get_alert_severity alert_type).

(** [SecurityAlertSystem.create_alert]. *)
Definition create_alert (now : Z) (ip alert_type message : string) (w : World) : World :=
  logging_warning
    ("SECURITY ALERT - " +:+ alert_type +:+ ": " +:+ message +:+ " for IP " +:+ ip)
    (set_alerts (ring_append MAXLEN (alerts w) (make_alert now ip alert_type message)) w).

Definition msg_out (peak : Z) : string :=
  "High outbound bandwidth detected: " +:+ pretty peak +:+ " bytes".
Definition msg_in (peak : Z) : string :=
  "High inbound bandwidth detected: " +:+ pretty peak +:+ " bytes".
Definition msg_packets (peak : Z) : string :=
  "High packet count detected: " +:+ pretty peak +:+ " packets".

(** One of the three checks: [if d and max(d) > threshold: create_alert(...)]. *)
Definition check_peak (now : Z) (ip : string) (d : list Z) (threshold : Z)
    (alert_type : string) (message : Z → string) (w : World) : World :=
  match d with
  | [] => w
  | x :: xs =>
      if threshold <? py_max x xs
      then create_alert now ip alert_type (message (py_max x xs)) w
      else w
  end.

(** The body of the [for] in [check_for_anomalies]. *)
Definition check_ip (now : Z) (w : World) (ip : string) : World :=
  let bandwidth := dict_get ip (bandwidth_data w) in
  let packet := dict_get ip (packet_data w) in
  let w := check_peak now ip (sent bandwidth) (high_bandwidth (alert_thresholds w))
             "HIGH_BANDWIDTH_OUT" msg_out w in
  let w := check_peak now ip (received bandwidth) (high_bandwidth (alert_thresholds w))
             "HIGH_BANDWIDTH_IN" msg_in w in
  check_peak now ip (sent packet) (suspicious_packets (alert_thresholds w))
    "SUSPICIOUS_PACKETS" msg_packets w.

(** [SecurityAlertSystem.check_for_anomalies]; [now] is the reading of
    [datetime.now()], taken to be the same for the alerts of one evaluation. *)
Definition check_for_anomalies (now : Z) (w : World) : World :=
  foldl (check_ip now) w (elements (monitored_ips w)).

(** ** CyberSecurityMonitorGUI (the commands that reach the core)

    Of the widgets only the status line, the dialogs and the
    [monitoring_active] variable are kept; button labels, colours, the tree
    view, the charts and the text widget behind [log_message] are not
    modelled. *)

(** [toggle_monitoring]. *)
Definition toggle_monitoring (w : World) : World :=
  if negb (monitoring_active w) then
    if decide (monitored_ips w = ∅) then
      show (ShowWarning "Warning" "Please add at least one IP address to monitor") w
    else
      set_status_var "Monitoring active"
        (set_monitoring_active true (start_monitoring w))
  else
    set_status_var "Monitoring stopped"
      (set_monitoring_active false (stop_monitoring w)).

(** [clear_data]; [confirmed] is the answer to [messagebox.askyesno]. *)
Definition clear_data (confirmed : bool) (w : World) : World :=
  if confirmed then
    set_status_var "Data cleared" (set_packet_data ∅ (set_bandwidth_data ∅ w))
  else w.

(** The dict built for one target in [export_data]; the four subscripts go
    through the [defaultdict]s. *)
Definition export_one (acc : export_doc * World) (ip : string) : export_doc * World :=
  let '(doc, w) := acc in
  let '(b1, bd) := defaultdict_getitem ip (bandwidth_data w) in
  let '(b2, bd) := defaultdict_getitem ip bd in
  let '(p1, pd) := defaultdict_getitem ip (packet_data w) in
  let '(p2, pd) := defaultdict_getitem ip pd in
  (doc ++ [(ip, ExportEntry (sent b1) (received b2) (sent p1) (received p2))],
   set_packet_data pd (set_bandwidth_data bd w)).

(** The mapping [export_data] builds before it opens the file. *)
Definition build_export (w : World) : export_doc * World :=
  foldl export_one ([], w) (elements (monitored_ips w)).

(** [export_data]; [stamp] is [datetime.now().strftime('%Y%m%d_%H%M%S')] and
    [fs] what the file system does. A file holds the document that
    [json.dump] serialised into it. *)
Definition export_data (stamp : string) (fs : fs_outcome) (w : World) : World :=
  let '(doc, w) := build_export w in
  let filename := "bandwidth_data_" +:+ stamp +:+ ".json" in
  match fs with
  | FsOk =>
      set_status_var ("Data exported to " +:+ filename)
        (show (ShowInfo "Success" ("Data exported to " +:+ filename))
           (set_files (<[filename := doc]> (files w)) w))
  | FsError e =>
      show (ShowError "Error" ("Failed to export data: " +:+ exn_msg e)) w
  end.

(** ** The process as a transition system *)

(** What can happen next: a command of the user, or the scheduler lets
    thread [i] take one step. *)
Inductive event : Type :=
| AddIp (ip : string)
| RemoveIp (ip : string)
| Toggle
| ClearData (confirmed : bool)
| ExportData (stamp : string) (fs : fs_outcome)
| CheckAnomalies (now : Z)
| ThreadStep (i : nat) (s : sample) (fault : sqlite_fault) (now : Z).

Definition step (w : World) (e : event) : World :=
  match e with
  | AddIp ip => (add_ip_to_monitor ip w).2
  | RemoveIp ip => remove_ip_from_monitor ip w
  | Toggle => toggle_monitoring w
  | ClearData c => clear_data c w
  | ExportData stamp fs => export_data stamp fs w
  | CheckAnomalies now => check_for_anomalies now w
  | ThreadStep i s fault now =>
      match threads w !! i with
      | None => w
      | Some p =>
          let '(p', w') := monitor_loop_step p s fault now w in
          set_threads (<[i := p']> (threads w')) w'
      end
  end.

Definition run (w : World) (evs : list event) : World := foldl step w evs.

(** The samples that the threads may still append once the flag is down:
    the targets left in the passes that are in progress. *)
Definition pending_of (p : pc) : nat :=
  match p with InFor rest => length rest | _ => 0%nat end.

Definition pending (w : World) : nat := sum_list (pending_of <$> threads w).

Definition is_thread_step (e : event) : bool :=
  match e with ThreadStep _ _ _ _ => true | _ => false end.

End Monitor.

(** ** BandwidthAnalyzer *)

(** A Python number: [int] or [float]. A finite float is the rational it
    denotes. *)
Inductive pynum : Type := PyInt (z : Z) | PyFloat (q : Q).

(** [a / n] on integers ([n] is a length, positive where this is used):
    Python returns the float nearest to this quotient. *)
Definition py_truediv (a : Z) (n : nat) : Q := (a # Pos.of_nat n)%Q.

Record trend_report : Type := TrendReport { trend : string; slope : pynum }.

Definition is_empty (d : list Z) : bool :=
  match d with [] => true | _ => false end.

Section Analyzer.

(** [numpy.polyfit(x, y, 1)[0]]: the slope NumPy returns for the degree-one
    fit of [y] against [x] (a float, computed by LAPACK). *)
Variable polyfit_slope : list Z → list Z → Q.

(** [BandwidthAnalyzer.get_total_bandwidth]. *)
Definition get_total_bandwidth (ip : string) (w : World) : Z * Z :=
  let data := dict_get ip (bandwidth_data w) in
  (py_sum (sent data), py_sum (received data)).

(** [BandwidthAnalyzer.get_average_bandwidth]. *)
Definition get_average_bandwidth (ip : string) (w : World) : Q * Q :=
  let data := dict_get ip (bandwidth_data w) in
  if is_empty (sent data) || is_empty (received data) then (0%Q, 0%Q)
  else (py_truediv (py_sum (sent data)) (length (sent data)),
        py_truediv (py_sum (received data)) (length (received data))).

(** [BandwidthAnalyzer.get_peak_bandwidth]. *)
Definition get_peak_bandwidth (ip : string) (w : World) : Z * Z :=
  let data := dict_get ip (bandwidth_data w) in
  match sent data, received data with
  | x :: xs, y :: ys => (py_max x xs, py_max y ys)
  | _, _ => (0, 0)
  end.

(** [BandwidthAnalyzer.get_bandwidth_trend]. *)
Definition get_bandwidth_trend (ip : string) (w : World) : trend_report :=
  let data := dict_get ip (bandwidth_data w) in
  if decide (length (sent data) < 2)%nat then TrendReport "insufficient_data" (PyInt 0)
  else
    let sent_data := sent data in
    let x := seqZ 0 (Z.of_nat (length sent_data)) in
    if decide (1 < length x)%nat then
      let slope := polyfit_slope x sent_data in
      match (slope ?= 0)%Q with
      | Gt => TrendReport "increasing" (PyFloat slope)
      | Lt => TrendReport "decreasing" (PyFloat slope)
      | Eq => TrendReport "stable" (PyFloat slope)
      end
    else TrendReport "stable" (PyInt 0).

End Analyzer.

(** ** The validator

    [add_ip_to_monitor] is stated over any validator. The functions below
    follow [ipaddress.ip_address] of the standard library (CPython 3.9.5 and
    later) on strings, so that the statements can be run on real inputs. *)
Module PyIpaddress.

(** [s.split(sep)]: one more part than there are separators. *)
Fixpoint split_on (sep : ascii) (s : string) : list string :=
  match s with
  | EmptyString => [""]
  | String c s' =>
      if decide (c = sep) then "" :: split_on sep s'
      else match split_on sep s' with
           | p :: ps => String c p :: ps
           | [] => [String c ""]
           end
  end.

(** [c in s]. *)
Fixpoint contains (c : ascii) (s : string) : bool :=
  match s with
  | EmptyString => false
  | String c' s' => bool_decide (c' = c) || contains c s'
  end.

Fixpoint all_chars (p : ascii → bool) (s : string) : bool :=
  match s with
  | EmptyString => true
  | String c s' => p c && all_chars p s'
  end.

Definition is_digit (c : ascii) : bool :=
  let n := nat_of_ascii c in (48 <=? n)%nat && (n <=? 57)%nat.

Definition is_hex_digit (c : ascii) : bool :=
  let n := nat_of_ascii c in
  is_digit c || ((65 <=? n)%nat && (n <=? 70)%nat) || ((97 <=? n)%nat && (n <=? 102)%nat).

(** [int(s, 10)] on a string of digits. *)
Fixpoint decimal_from (acc : nat) (s : string) : nat :=
  match s with
  | EmptyString => acc
  | String c s' => decimal_from (10 * acc + (nat_of_ascii c - 48)) s'
  end.

(** [IPv4Address._parse_octet] returns. *)
Definition parse_octet (o : string) : bool :=
  negb (bool_decide (o = ""))
  && all_chars is_digit o
  && (String.length o <=? 3)%nat
  && (bool_decide (o = "0") || negb (bool_decide (String.get 0 o = Some "0"%char)))
  && (decimal_from 0 o <=? 255)%nat.

(** [IPv4Address(s)] returns. *)
Definition ipv4_address (s : string) : bool :=
  negb (contains "/" s)
  && negb (bool_decide (s = ""))
  && match split_on "." s with
     | [a; b; c; d] => parse_octet a && parse_octet b && parse_octet c && parse_octet d
     | _ => false
     end.

(** [IPv6Address._parse_hextet] returns. *)
Definition parse_hextet (h : string) : bool :=
  all_chars is_hex_digit h && (String.length h <=? 4)%nat && negb (bool_decide (h = "")).

(** [s.partition('%')]: the text before the first [%] and, when there is
    one, the text after it. *)
Fixpoint partition_percent (s : string) : string * option string :=
  match s with
  | EmptyString => ("", None)
  | String c s' =>
      if decide (c = "%"%char) then ("", Some s')
      else let '(a, r) := partition_percent s' in (String c a, r)
  end.

(** [IPv6Address._split_scope_id]: the address part, when it returns. *)
Definition split_scope_id (s : string) : option string :=
  match partition_percent s with
  | (addr, None) => Some addr
  | (addr, Some scope) =>
      if bool_decide (scope = "") || contains "%" scope then None else Some addr
  end.

(** The indices [i] in [range(1, len(parts) - 1)] with [parts[i]] empty,
    for [parts] the tail of the list and [i] the index of its head. *)
Fixpoint empty_inner (i : nat) (parts : list string) : list nat :=
  match parts with
  | [] | [_] => []
  | p :: ps => (if bool_decide (p = "") then [i] else []) ++ empty_inner (S i) ps
  end.

(** [IPv6Address._ip_int_from_str] returns. An embedded IPv4 address is
    replaced by two hextets; their digits do not matter for validity. *)
Definition ipv6_int_from_str (s : string) : bool :=
  if bool_decide (s = "") then false else
  let parts := split_on ":" s in
  if (length parts <? 3)%nat then false else
  let tail := List.last parts "" in
  let parts' :=
    if contains "." tail then
      if ipv4_address tail then Some (removelast parts ++ ["0"; "0"]) else None
    else Some parts in
  match parts' with
  | None => false
  | Some parts =>
      if (9 <? length parts)%nat then false else
      match empty_inner 1 (List.tl parts) with
      | _ :: _ :: _ => false
      | [skip_index] =>
          let parts_hi := skip_index in
          let parts_lo := (length parts - skip_index - 1)%nat in
          let first_empty := bool_decide (List.hd "" parts = "") in
          let last_empty := bool_decide (List.last parts "" = "") in
          let parts_hi := if first_empty then (parts_hi - 1)%nat else parts_hi in
          let parts_lo := if last_empty then (parts_lo - 1)%nat else parts_lo in
          if first_empty && negb (parts_hi =? 0)%nat then false
          else if last_empty && negb (parts_lo =? 0)%nat then false
          else if (8 <=? parts_hi + parts_lo)%nat then false
          else forallb parse_hextet (take parts_hi parts ++ lastn parts_lo parts)
      | [] =>
          if negb (length parts =? 8)%nat then false
          else if bool_decide (List.hd "" parts = "") then false
          else if bool_decide (List.last parts "" = "") then false
          else forallb parse_hextet parts
      end
  end.

(** [IPv6Address(s)] returns. *)
Definition ipv6_address (s : string) : bool :=
  negb (contains "/" s)
  && match split_scope_id s with
     | None => false
     | Some addr => ipv6_int_from_str addr
     end.

(** [ipaddress.ip_address(s)] returns (it raises [ValueError] otherwise). *)
Definition ip_address (s : string) : bool := ipv4_address s || ipv6_address s.

End PyIpaddress.

(** ** Predicates used in the statements *)

(** Both deques of a window are within the capacity. *)
Definition window_ok (win : window) : Prop :=
  (length (sent win) ≤ MAXLEN)%nat ∧ (length (received win) ≤ MAXLEN)%nat.

(** Every window of the byte and of the packet dict is within the capacity. *)
Definition windows_bounded (w : World) : Prop :=
  map_Forall (λ _ win, window_ok win) (bandwidth_data w)
  ∧ map_Forall (λ _ win, window_ok win) (packet_data w).

(** [p] is a largest item of [d]. *)
Definition is_max_of (p : Z) (d : list Z) : Prop :=
  p ∈ d ∧ Forall (λ x, x ≤ p) d.

(** The sampling loop stores these samples for [ip], one after the other. *)
Definition store_all (ip : string) (xs : list sample) (w : World) : World :=
  foldl (λ w s, store_sample ip s w) w xs.

(** What the four appends do to a dict, seen from outside. *)
Definition push (ip : string) (a b : Z) (d : gmap string window) : gmap string window :=
  <[ip := Window (deque_append MAXLEN (sent (dict_get ip d)) a)
                 (deque_append MAXLEN (received (dict_get ip d)) b)]> d.

(** The alert evaluator only writes the alert ring and the log: these
    fields are the same in both worlds. *)
Definition same_core (w w' : World) : Prop :=
  bandwidth_data w = bandwidth_data w'
  ∧ packet_data w = packet_data w'
  ∧ alert_thresholds w = alert_thresholds w'
  ∧ monitored_ips w = monitored_ips w'
  ∧ monitoring w = monitoring w'
  ∧ threads w = threads w'
  ∧ data_queue w = data_queue w'
  ∧ monitoring_active w = monitoring_active w'.

(** The alert one check builds, if any. *)
Definition peak_alert (now : Z) (ip : string) (d : list Z) (threshold : Z)
    (alert_type : string) (message : Z → string) : list alert :=
  match d with
  | [] => []
  | x :: xs =>
      if threshold <? py_max x xs
      then [make_alert now ip alert_type (message (py_max x xs))]
      else []
  end.

(** The alerts one evaluation builds for [ip], in the order of the checks. *)
Definition raised_for (now : Z) (w : World) (ip : string) : list alert :=
  peak_alert now ip (sent (dict_get ip (bandwidth_data w)))
    (high_bandwidth (alert_thresholds w)) "HIGH_BANDWIDTH_OUT" msg_out
  ++ peak_alert now ip (received (dict_get ip (bandwidth_data w)))
       (high_bandwidth (alert_thresholds w)) "HIGH_BANDWIDTH_IN" msg_in
  ++ peak_alert now ip (sent (dict_get ip (packet_data w)))
       (suspicious_packets (alert_thresholds w)) "SUSPICIOUS_PACKETS" msg_packets.

(** The alerts one evaluation builds, in the order of the loop. *)
Definition raised (now : Z) (w : World) : list alert :=
  elements (monitored_ips w) ≫= raised_for now w.

(** The alerts of kind [ty] about [ip]. *)
Definition alerts_about (ip ty : string) (l : list alert) : list alert :=
  filter (λ a, alert_ip_address a = ip ∧ alert_type a = ty) l.

(** The two lifecycle states: the flag of the monitor and the variable of
    the GUI agree. *)
Definition Idle (w : World) : Prop := monitoring w = false ∧ monitoring_active w = false.
Definition Running (w : World) : Prop := monitoring w = true ∧ monitoring_active w = true.

(** What a thread step cannot touch unless it stores a sample. *)
Definition same_data (w w' : World) : Prop :=
  bandwidth_data w' = bandwidth_data w
  ∧ packet_data w' = packet_data w
  ∧ data_queue w' = data_queue w
  ∧ bandwidth_logs w' = bandwidth_logs w.

(** The monitoring flag is down in every state of the run of [evs] from
    [w]: monitoring is not started (again) during the run. *)
Fixpoint stays_down (ip_address : string → bool) (w : World) (evs : list event) : bool :=
  match evs with
  | [] => negb (monitoring w)
  | e :: evs => negb (monitoring w) && stays_down ip_address (step ip_address w e) evs
  end.

(** The steps a thread still takes before it ends, once the flag is down:
    the rest of its pass, the sleep, the test of the flag. *)
Definition remaining_of (p : pc) : nat :=
  match p with
  | Finished => 0
  | AtWhile => 1
  | Sleeping => 2
  | InFor rest => length rest + 3
  end.

Definition remaining (w : World) : nat := sum_list (remaining_of <$> threads w).

(** Every window of [d'] is the window of [d] for the same key, or empty. *)
Definition kept_or_cleared (d d' : gmap string window) : Prop :=
  ∀ ip, dict_get ip d' = dict_get ip d ∨ dict_get ip d' = Window [] [].

(** From [w] to [w'] no sample was appended: not to the queue, not to the
    table, not to a window. *)
Definition nothing_appended (w w' : World) : Prop :=
  data_queue w' = data_queue w
  ∧ bandwidth_logs w' = bandwidth_logs w
  ∧ kept_or_cleared (bandwidth_data w) (bandwidth_data w')
  ∧ kept_or_cleared (packet_data w) (packet_data w').

(** With [k] samples still to come before and [k'] after, no deque of [d']
    holds more than the deque of [d] plus the [k - k'] samples in between. *)
Definition grows_within (k k' : nat) (d d' : gmap string window) : Prop :=
  ∀ ip,
    (length (sent (dict_get ip d')) + k' ≤ length (sent (dict_get ip d)) + k)%nat
    ∧ (length (received (dict_get ip d')) + k' ≤ length (received (dict_get ip d)) + k)%nat.

(** From [w] to [w'] only samples of the passes in progress were appended:
    what the queue, the table and each deque hold, plus the samples the
    passes in progress may still add, has not grown. *)
Definition within_passes (w w' : World) : Prop :=
  (length (data_queue w') + pending w' = length (data_queue w) + pending w)%nat
  ∧ (length (bandwidth_logs w') + pending w' ≤ length (bandwidth_logs w) + pending w)%nat
  ∧ grows_within (pending w) (pending w') (bandwidth_data w) (bandwidth_data w')
  ∧ grows_within (pending w) (pending w') (packet_data w) (packet_data w').

(** From [w] to [w'] the queue, the table and every window are the same. *)
Definition quiet (w w' : World) : Prop :=
  data_queue w' = data_queue w
  ∧ bandwidth_logs w' = bandwidth_logs w
  ∧ (∀ ip, dict_get ip (bandwidth_data w') = dict_get ip (bandwidth_data w))
  ∧ (∀ ip, dict_get ip (packet_data w') = dict_get ip (packet_data w)).

Example ip_ok_1 : PyIpaddress.ip_address "10.0.0.1" = true. Proof. reflexivity. Qed.
Example ip_ok_2 : PyIpaddress.ip_address "::1" = true. Proof. reflexivity. Qed.
Example ip_ok_3 : PyIpaddress.ip_address "fe80::1%eth0" = true. Proof. reflexivity. Qed.
Example ip_ok_4 : PyIpaddress.ip_address "::ffff:192.168.1.1" = true. Proof. reflexivity. Qed.
Example ip_ok_5 : PyIpaddress.ip_address "1:2:3:4:5:6:7:8" = true. Proof. reflexivity. Qed.
Example ip_bad_1 : PyIpaddress.ip_address "999.999.999.999" = false. Proof. reflexivity. Qed.
Example ip_bad_2 : PyIpaddress.ip_address "" = false. Proof. reflexivity. Qed.
Example ip_bad_3 : PyIpaddress.ip_address "1.2.3" = false. Proof. reflexivity. Qed.
Example ip_bad_4 : PyIpaddress.ip_address "01.2.3.4" = false. Proof. reflexivity. Qed.
Example ip_bad_5 : PyIpaddress.ip_address ":::" = false. Proof. reflexivity. Qed.
Example ip_bad_6 : PyIpaddress.ip_address "1:2:3:4:5:6:7:8:9" = false. Proof. reflexivity. Qed.
Example ip_bad_7 : PyIpaddress.ip_address "1::2::3" = false. Proof. reflexivity. Qed.
Example ip_bad_8 : PyIpaddress.ip_address "10.0.0.1/8" = false. Proof. reflexivity. Qed.
Example ip_bad_9 : PyIpaddress.ip_address "localhost" = false. Proof. reflexivity. Qed.

(** ** Deques with a capacity *)

Section Deque.
Context {A : Type}.
Implicit Types (d l : list A) (n : nat).

Lemma lastn_length n l : length (lastn n l) = (length l `min` n)%nat.
Proof. unfold lastn. rewrite length_drop. lia. Qed.

Lemma lastn_all n l : (length l ≤ n)%nat → lastn n l = l.
Proof. intros H. unfold lastn. by replace (length l - n)%nat with 0%nat by lia. Qed.

Lemma lastn_app_r n l k : (n ≤ length k)%nat → lastn n (l ++ k) = lastn n k.
Proof.
  intros H. unfold lastn. rewrite length_app, drop_app.
  rewrite drop_ge by lia. simpl. f_equal. lia.
Qed.

Lemma lastn_lastn_app n l k : lastn n (lastn n l ++ k) = lastn n (l ++ k).
Proof.
  unfold lastn at 2. set (j := (length l - n)%nat).
  assert (Hj : (j ≤ length l)%nat) by (subst j; lia).
  replace (drop j l ++ k) with (drop j (l ++ k))
    by (rewrite drop_app; f_equal; replace (j - length l)%nat with 0%nat by lia; done).
  unfold lastn. rewrite drop_drop, length_drop, length_app. f_equal. lia.
Qed.

Lemma ring_append_lastn n d x : (length d ≤ n)%nat → ring_append n d x = lastn n (d ++ [x]).
Proof.
  intros H. unfold ring_append, lastn. rewrite length_app. simpl.
  case_decide.
  - f_equal. lia.
  - by replace (length d + 1 - n)%nat with 0%nat by lia.
Qed.

Lemma ring_append_length n d x : (length d ≤ n)%nat → (length (ring_append n d x) ≤ n)%nat.
Proof.
  intros H. unfold ring_append. rewrite length_app. simpl.
  case_decide; [rewrite length_drop|]; rewrite length_app; simpl; lia.
Qed.

Lemma foldl_ring_append n d k :
  (length d ≤ n)%nat → foldl (ring_append n) d k = lastn n (d ++ k).
Proof.
  revert d. induction k as [|x k IH]; intros d H; simpl.
  - by rewrite app_nil_r, lastn_all.
  - rewrite IH by by apply ring_append_length.
    rewrite ring_append_lastn by done.
    by rewrite lastn_lastn_app, <- app_assoc.
Qed.

End Deque.

Lemma deque_append_length n d x :
  (length d ≤ n)%nat → (length (deque_append n d x) ≤ n)%nat.
Proof. apply ring_append_length. Qed.

Lemma foldl_deque_append n d k :
  (length d ≤ n)%nat → foldl (deque_append n) d k = lastn n (d ++ k).
Proof. apply (foldl_ring_append (A := Z)). Qed.

(** [max] returns an item of the deque that no item exceeds. *)
Lemma py_max_is_max x d : is_max_of (py_max x d) (x :: d).
Proof.
  unfold is_max_of, py_max. revert x.
  induction d as [|y d IH]; intros x; simpl.
  - split; [apply elem_of_cons; by left | by repeat constructor].
  - destruct (IH (Z.max x y)) as [Hin Hall]. split.
    + apply elem_of_cons in Hin as [Heq | Hin].
      * rewrite Heq. destruct (Z.max_spec x y) as [[_ ->] | [_ ->]];
          [apply elem_of_cons; right|]; apply elem_of_cons; by left.
      * by do 2 (apply elem_of_cons; right).
    + apply Forall_cons in Hall as [Hle Hall].
      pose proof (Z.le_max_l x y). pose proof (Z.le_max_r x y).
      repeat apply Forall_cons_2; [lia | lia | done].
Qed.

(** ** The two dicts of windows *)

Lemma defaultdict_getitem_spec k d :
  defaultdict_getitem k d = (dict_get k d, <[k := dict_get k d]> d).
Proof.
  unfold defaultdict_getitem, dict_get.
  destruct (d !! k) as [v|] eqn:E; simpl; [|done].
  by rewrite insert_id.
Qed.

Lemma dict_get_insert k win d : dict_get k (<[k := win]> d) = win.
Proof. unfold dict_get. by rewrite lookup_insert_eq. Qed.

Lemma store_sample_bandwidth ip s w :
  bandwidth_data (store_sample ip s w)
  = push ip (bytes_sent s) (bytes_received s) (bandwidth_data w).
Proof.
  unfold store_sample, push. rewrite !defaultdict_getitem_spec.
  rewrite !dict_get_insert. simpl. by rewrite !insert_insert_eq.
Qed.

Lemma store_sample_packet ip s w :
  packet_data (store_sample ip s w)
  = push ip (packets_sent s) (packets_received s) (packet_data w).
Proof.
  unfold store_sample, push. rewrite !defaultdict_getitem_spec.
  rewrite !dict_get_insert. simpl. by rewrite !insert_insert_eq.
Qed.

Lemma window_ok_default : window_ok (Window [] []).
Proof. split; simpl; lia. Qed.

Lemma dict_get_ok k d :
  map_Forall (λ _ win, window_ok win) d → window_ok (dict_get k d).
Proof.
  intros H. unfold dict_get. destruct (d !! k) as [v|] eqn:E; simpl.
  - by apply (H k).
  - apply window_ok_default.
Qed.

Lemma push_ok ip a b d :
  map_Forall (λ _ win, window_ok win) d → map_Forall (λ _ win, window_ok win) (push ip a b d).
Proof.
  intros H. unfold push. apply map_Forall_insert_2; [|done].
  destruct (dict_get_ok ip d H) as [Hs Hr].
  split; simpl; by apply deque_append_length.
Qed.

(** The window of [ip] after a run of stores. *)
Lemma store_all_window ip xs w :
  dict_get ip (bandwidth_data (store_all ip xs w))
  = Window (foldl (deque_append MAXLEN) (sent (dict_get ip (bandwidth_data w)))
              (bytes_sent <$> xs))
           (foldl (deque_append MAXLEN) (received (dict_get ip (bandwidth_data w)))
              (bytes_received <$> xs)).
Proof.
  unfold store_all. revert w. induction xs as [|s xs IH]; intros w; simpl.
  - by destruct (dict_get ip (bandwidth_data w)).
  - rewrite IH, store_sample_bandwidth. unfold push. by rewrite dict_get_insert.
Qed.

Lemma store_all_bound ip xs w :
  (∃ s xs', xs = xs' ++ [s]) → is_Some (bandwidth_data (store_all ip xs w) !! ip).
Proof.
  intros (s & xs' & ->). unfold store_all. rewrite foldl_app. simpl.
  rewrite store_sample_bandwidth. unfold push. rewrite lookup_insert_eq. eauto.
Qed.

(** ** What the alert evaluator leaves alone *)

Lemma same_core_refl w : same_core w w.
Proof. by repeat split. Qed.

Lemma same_core_trans w1 w2 w3 : same_core w1 w2 → same_core w2 w3 → same_core w1 w3.
Proof.
  intros (? & ? & ? & ? & ? & ? & ? & ?) (? & ? & ? & ? & ? & ? & ? & ?).
  repeat split; congruence.
Qed.

Lemma check_peak_frame now ip d t ty m w : same_core w (check_peak now ip d t ty m w).
Proof.
  unfold check_peak. destruct d as [|x xs]; [apply same_core_refl|].
  destruct (t <? py_max x xs); by repeat split.
Qed.

Lemma check_ip_frame now w ip : same_core w (check_ip now w ip).
Proof.
  unfold check_ip.
  eapply same_core_trans; [|apply check_peak_frame].
  eapply same_core_trans; [|apply check_peak_frame].
  apply check_peak_frame.
Qed.

Lemma foldl_check_ip_frame now ips w : same_core w (foldl (check_ip now) w ips).
Proof.
  revert w. induction ips as [|ip ips IH]; intros w; simpl; [apply same_core_refl|].
  eapply same_core_trans; [apply check_ip_frame | apply IH].
Qed.

(** ** The capacity is an invariant of the process *)

Lemma export_one_bounded acc ip :
  windows_bounded acc.2 → windows_bounded (export_one acc ip).2.
Proof.
  destruct acc as [doc w]. intros [Hb Hp]. unfold export_one.
  rewrite !defaultdict_getitem_spec. simpl.
  split; simpl; repeat apply map_Forall_insert_2;
    repeat first [done | apply dict_get_ok | apply map_Forall_insert_2].
Qed.

Lemma build_export_bounded w : windows_bounded w → windows_bounded (build_export w).2.
Proof.
  unfold build_export. generalize (elements (monitored_ips w)).
  generalize (@nil (string * export_entry)).
  intros doc ips. revert doc w.
  induction ips as [|ip ips IH]; intros doc w H; cbn [foldl]; [done|].
  pose proof (export_one_bounded (doc, w) ip H) as H'.
  destruct (export_one (doc, w) ip) as [doc' w']. by apply IH.
Qed.

Lemma store_sample_bounded ip s w : windows_bounded w → windows_bounded (store_sample ip s w).
Proof.
  intros [Hb Hp]. split.
  - rewrite store_sample_bandwidth. by apply push_ok.
  - rewrite store_sample_packet. by apply push_ok.
Qed.

Lemma loop_body_bounded ip s fault now w :
  windows_bounded w → windows_bounded (loop_body ip s fault now w).2.
Proof.
  intros H. apply (store_sample_bounded ip s) in H. unfold loop_body.
  generalize dependent (store_sample ip s w). intros w' H.
  unfold add_bandwidth_log.
  destruct (sqlite_insert _ _ _) as [[?|e] table]; simpl; exact H.
Qed.

Lemma monitor_loop_step_bounded p s fault now w :
  windows_bounded w → windows_bounded (monitor_loop_step p s fault now w).2.
Proof.
  intros H. destruct p as [|[|ip rest]| |]; simpl; try done.
  - by destruct (monitoring w).
  - pose proof (loop_body_bounded ip s fault now w H) as H'.
    by destruct (loop_body ip s fault now w) as [[?|e] w'].
Qed.

Lemma step_bounded ip_address w e :
  windows_bounded w → windows_bounded (step ip_address w e).
Proof.
  intros H. destruct e as [ip|ip| |c|stamp fs|now|i s fault now]; simpl.
  - unfold add_ip_to_monitor. by destruct (ip_address ip).
  - done.
  - unfold toggle_monitoring. destruct (negb _); [case_decide|]; done.
  - destruct c; [|done]. split; simpl; apply map_Forall_empty.
  - unfold export_data. pose proof (build_export_bounded w H) as H'.
    destruct (build_export w) as [doc w']. by destruct fs.
  - unfold check_for_anomalies, windows_bounded.
    destruct (foldl_check_ip_frame now (elements (monitored_ips w)) w) as (<- & <- & _).
    done.
  - destruct (threads w !! i) as [p|]; [|done].
    pose proof (monitor_loop_step_bounded p s fault now w H) as H'.
    by destruct (monitor_loop_step p s fault now w) as [p' w'].
Qed.

Lemma init_bounded : windows_bounded init.
Proof. split; simpl; apply map_Forall_empty. Qed.

Lemma run_bounded ip_address evs w :
  windows_bounded w → windows_bounded (run ip_address w evs).
Proof.
  unfold run. revert w. induction evs as [|e evs IH]; intros w H; simpl; [done|].
  by apply IH, step_bounded.
Qed.

(** ** Windows after many samples *)

Lemma store_all_recent ip xs w :
  windows_bounded w → (MAXLEN ≤ length xs)%nat →
  bandwidth_data (store_all ip xs w) !! ip
  = Some (Window (lastn MAXLEN (bytes_sent <$> xs)) (lastn MAXLEN (bytes_received <$> xs))).
Proof.
  intros [Hb _] Hlen.
  destruct (dict_get_ok ip _ Hb) as [Hs Hr].
  assert (is_Some (bandwidth_data (store_all ip xs w) !! ip)) as [win Hwin].
  { apply store_all_bound. destruct xs as [|s xs' _] using rev_ind.
    - unfold MAXLEN in Hlen. simpl in Hlen. lia.
    - by exists s, xs'. }
  pose proof (store_all_window ip xs w) as Hget.
  unfold dict_get at 1 in Hget. rewrite Hwin in Hget. simpl in Hget.
  rewrite Hwin, Hget. do 2 f_equal.
  - rewrite foldl_deque_append by done. apply lastn_app_r. by rewrite length_fmap.
  - rewrite foldl_deque_append by done. apply lastn_app_r. by rewrite length_fmap.
Qed.

Lemma nonempty_of_length (d : list Z) n : length d = S n → ∃ x xs, d = x :: xs.
Proof. destruct d as [|x xs]; [done | eauto]. Qed.

(** C1. For every target, the window of sent and received byte counts never
    holds more than 100 entries, in any state the process can reach; and
    after more than 100 samples have been stored for one target, its window
    is exactly the 100 most recent samples in arrival order, and total,
    average and peak are those of these 100 samples. *)
Theorem window_capacity (ip_address : string → bool) (evs : list event)
    (ip : string) (xs : list sample) :
  let w := run ip_address init evs in
  let w' := store_all ip xs w in
  let recent_sent := lastn 100 (bytes_sent <$> xs) in
  let recent_received := lastn 100 (bytes_received <$> xs) in
  windows_bounded w ∧ windows_bounded w' ∧
  ((100 < length xs)%nat →
   bandwidth_data w' !! ip = Some (Window recent_sent recent_received)
   ∧ length recent_sent = 100%nat ∧ length recent_received = 100%nat
   ∧ get_total_bandwidth ip w' = (py_sum recent_sent, py_sum recent_received)
   ∧ get_average_bandwidth ip w'
     = (py_truediv (py_sum recent_sent) 100, py_truediv (py_sum recent_received) 100)
   ∧ is_max_of (get_peak_bandwidth ip w').1 recent_sent
   ∧ is_max_of (get_peak_bandwidth ip w').2 recent_received).
Proof.
  intros w w' recent_sent recent_received.
  assert (Hw : windows_bounded w) by apply run_bounded, init_bounded.
  assert (Hw' : windows_bounded w').
  { subst w'. unfold store_all. generalize w Hw. clear.
    induction xs as [|s xs IH]; intros w Hw; simpl; [done|].
    by apply IH, store_sample_bounded. }
  split; [done|]. split; [done|]. intros Hlen.
  assert (Hwin : bandwidth_data w' !! ip = Some (Window recent_sent recent_received)).
  { apply store_all_recent; [done | unfold MAXLEN; lia]. }
  assert (Hls : length recent_sent = 100%nat).
  { subst recent_sent. rewrite lastn_length, length_fmap. lia. }
  assert (Hlr : length recent_received = 100%nat).
  { subst recent_received. rewrite lastn_length, length_fmap. lia. }
  split; [done|]. split; [done|]. split; [done|].
  unfold get_total_bandwidth, get_average_bandwidth, get_peak_bandwidth, dict_get.
  rewrite Hwin. simpl.
  destruct (nonempty_of_length _ _ Hls) as (x & l & Ex).
  destruct (nonempty_of_length _ _ Hlr) as (y & k & Ey).
  rewrite Ex, Ey in *. simpl is_empty. simpl orb. cbv iota.
  rewrite Hls, Hlr. repeat split; simpl fst; simpl snd; try apply py_max_is_max.
Qed.

Lemma window_capacity_witness :
  let xs := (λ n, Sample n (2 * n) 1 1) <$> seqZ 1 101 in
  let w' := store_all "10.0.0.1" xs (run PyIpaddress.ip_address init [AddIp "10.0.0.1"]) in
  (100 < length xs)%nat
  ∧ bandwidth_data w' !! "10.0.0.1"
    = Some (Window (seqZ 2 100) ((λ n, 2 * n) <$> seqZ 2 100))
  ∧ get_total_bandwidth "10.0.0.1" w' = (5150, 10300)
  ∧ get_peak_bandwidth "10.0.0.1" w' = (101, 202).
Proof.
  intros xs w'.
  pose proof (window_capacity PyIpaddress.ip_address [AddIp "10.0.0.1"] "10.0.0.1" xs)
    as (_ & _ & H).
  assert (Hlen : (100 < length xs)%nat) by (vm_compute; lia).
  destruct (H Hlen) as (Hwin & _ & _ & Htot & _ & _ & _).
  split; [exact Hlen|]. split; [|split].
  - etransitivity; [exact Hwin|]. vm_compute. reflexivity.
  - etransitivity; [exact Htot|]. vm_compute. reflexivity.
  - vm_compute. reflexivity.
Defined.

(** ** Queries on short windows *)

Lemma average_of_empty ip w :
  sent (dict_get ip (bandwidth_data w)) = [] ∨ received (dict_get ip (bandwidth_data w)) = [] →
  get_average_bandwidth ip w = (0%Q, 0%Q).
Proof.
  unfold get_average_bandwidth. intros [-> | ->]; [done|].
  by rewrite orb_true_r.
Qed.

Lemma peak_of_empty ip w :
  sent (dict_get ip (bandwidth_data w)) = [] ∨ received (dict_get ip (bandwidth_data w)) = [] →
  get_peak_bandwidth ip w = (0, 0).
Proof.
  unfold get_peak_bandwidth. intros [-> | ->]; [done|].
  by destruct (sent _).
Qed.

(** C2. For a target whose window is empty (no entry in the dict, or an
    entry with two empty deques), average and peak return (0,0); for a target
    whose window holds fewer than two sent-byte values, trend returns
    insufficient_data with slope 0. *)
Theorem short_window_queries (polyfit_slope : list Z → list Z → Q) (ip : string) (w : World) :
  (dict_get ip (bandwidth_data w) = Window [] [] →
   get_average_bandwidth ip w = (0%Q, 0%Q) ∧ get_peak_bandwidth ip w = (0, 0))
  ∧ ((length (sent (dict_get ip (bandwidth_data w))) < 2)%nat →
     get_bandwidth_trend polyfit_slope ip w = TrendReport "insufficient_data" (PyInt 0)).
Proof.
  split.
  - intros H. split; [apply average_of_empty | apply peak_of_empty]; rewrite H; by left.
  - intros H. unfold get_bandwidth_trend. by rewrite decide_True.
Qed.

Lemma short_window_queries_witness :
  let w := store_all "10.0.0.1" [Sample 1500 3000 12 20] init in
  (dict_get "10.0.0.2" (bandwidth_data w) = Window [] []
   ∧ get_average_bandwidth "10.0.0.2" w = (0%Q, 0%Q)
   ∧ get_peak_bandwidth "10.0.0.2" w = (0, 0))
  ∧ ((length (sent (dict_get "10.0.0.1" (bandwidth_data w))) < 2)%nat
     ∧ get_bandwidth_trend (λ _ _, 1%Q) "10.0.0.1" w
       = TrendReport "insufficient_data" (PyInt 0)).
Proof.
  intros w. split.
  - assert (H : dict_get "10.0.0.2" (bandwidth_data w) = Window [] []) by reflexivity.
    split; [exact H|].
    exact (proj1 (short_window_queries (λ _ _, 1%Q) "10.0.0.2" w) H).
  - assert (H : (length (sent (dict_get "10.0.0.1" (bandwidth_data w))) < 2)%nat)
      by (vm_compute; lia).
    split; [exact H|].
    exact (proj2 (short_window_queries (λ _ _, 1%Q) "10.0.0.1" w) H).
Defined.

(** ** Unregistering *)

(** C10. Unregistering a target removes it from the active set and leaves
    the byte and packet windows as they were; for a target with recorded
    samples, total, average and peak are afterwards still the sum, the mean
    and the maximum of the retained window. *)
Theorem unregister_keeps_windows (ip : string) (w : World)
    (x y : Z) (xs ys : list Z) :
  dict_get ip (bandwidth_data w) = Window (x :: xs) (y :: ys) →
  (let w' := remove_ip_from_monitor ip w in
   (ip ∉ monitored_ips w')
   ∧ bandwidth_data w' = bandwidth_data w
   ∧ packet_data w' = packet_data w
   ∧ get_total_bandwidth ip w' = (py_sum (x :: xs), py_sum (y :: ys))
   ∧ get_average_bandwidth ip w'
     = (py_truediv (py_sum (x :: xs)) (length (x :: xs)),
        py_truediv (py_sum (y :: ys)) (length (y :: ys)))
   ∧ get_peak_bandwidth ip w' = (py_max x xs, py_max y ys)
   ∧ get_total_bandwidth ip w' = get_total_bandwidth ip w
   ∧ get_average_bandwidth ip w' = get_average_bandwidth ip w
   ∧ get_peak_bandwidth ip w' = get_peak_bandwidth ip w).
Proof.
  intros H w'.
  assert (Hbd : bandwidth_data w' = bandwidth_data w) by reflexivity.
  split.
  { simpl. apply not_elem_of_difference. right. by apply elem_of_singleton. }
  split; [done|]. split; [done|].
  unfold get_total_bandwidth, get_average_bandwidth, get_peak_bandwidth.
  rewrite Hbd, H. by repeat split.
Qed.

Lemma unregister_keeps_windows_witness :
  let w := store_all "10.0.0.1" [Sample 5 7 1 1; Sample 3 9 1 1]
             (run PyIpaddress.ip_address init [AddIp "10.0.0.1"]) in
  let w' := remove_ip_from_monitor "10.0.0.1" w in
  "10.0.0.1" ∈ monitored_ips w
  ∧ ("10.0.0.1" ∉ monitored_ips w')
  ∧ get_total_bandwidth "10.0.0.1" w' = (8, 16)
  ∧ get_average_bandwidth "10.0.0.1" w' = ((8 # 2)%Q, (16 # 2)%Q)
  ∧ get_peak_bandwidth "10.0.0.1" w' = (5, 9).
Proof.
  intros w w'.
  assert (H : dict_get "10.0.0.1" (bandwidth_data w) = Window [5; 3] [7; 9])
    by (vm_compute; reflexivity).
  destruct (unregister_keeps_windows "10.0.0.1" w 5 7 [3] [9] H)
    as (Hout & _ & _ & Htot & Havg & Hpeak & _).
  split; [by vm_compute|]. split; [exact Hout|].
  split; [exact Htot|]. split; [exact Havg | exact Hpeak].
Defined.

(** ** The alert evaluator *)

Lemma check_peak_alerts now ip d t ty m w :
  alerts (check_peak now ip d t ty m w)
  = foldl (ring_append MAXLEN) (alerts w) (peak_alert now ip d t ty m).
Proof.
  unfold check_peak, peak_alert. destruct d as [|x xs]; [done|].
  by destruct (t <? py_max x xs).
Qed.

Lemma raised_for_same_core now w w' ip :
  same_core w w' → raised_for now w' ip = raised_for now w ip.
Proof. intros (Hb & Hp & Ht & _). unfold raised_for. by rewrite Hb, Hp, Ht. Qed.

Lemma check_ip_alerts now w ip :
  alerts (check_ip now w ip) = foldl (ring_append MAXLEN) (alerts w) (raised_for now w ip).
Proof.
  unfold check_ip, raised_for. rewrite !foldl_app, !check_peak_alerts.
  set (w1 := check_peak now ip (sent (dict_get ip (bandwidth_data w))) _ _ _ w).
  assert (H1 : same_core w w1) by apply check_peak_frame.
  set (w2 := check_peak now ip (received (dict_get ip (bandwidth_data w))) _ _ _ w1).
  assert (H2 : same_core w1 w2) by apply check_peak_frame.
  destruct H1 as (_ & _ & E1 & _). destruct H2 as (_ & _ & E2 & _).
  by rewrite <- E2, <- E1.
Qed.

Lemma foldl_check_ip_alerts now w0 ips w :
  same_core w0 w →
  alerts (foldl (check_ip now) w ips)
  = foldl (ring_append MAXLEN) (alerts w) (ips ≫= raised_for now w0).
Proof.
  revert w. induction ips as [|ip ips IH]; intros w H; simpl; [done|].
  rewrite foldl_app, IH.
  - by rewrite check_ip_alerts, (raised_for_same_core now w0 w).
  - eapply same_core_trans; [exact H | apply check_ip_frame].
Qed.

(** Every alert that is raised enters the ring, in order. *)
Lemma check_for_anomalies_alerts now w :
  alerts (check_for_anomalies now w) = foldl (ring_append MAXLEN) (alerts w) (raised now w).
Proof. apply foldl_check_ip_alerts, same_core_refl. Qed.

Lemma alerts_about_app ip ty l k :
  alerts_about ip ty (l ++ k) = alerts_about ip ty l ++ alerts_about ip ty k.
Proof. apply filter_app. Qed.

Lemma alerts_about_peak ip ty now ip' d t ty' m :
  alerts_about ip ty (peak_alert now ip' d t ty' m)
  = if decide (ip' = ip ∧ ty' = ty) then peak_alert now ip' d t ty' m else [].
Proof.
  unfold alerts_about, peak_alert. destruct d as [|x xs]; [by case_decide|].
  destruct (t <? py_max x xs); [|by case_decide].
  unfold filter; simpl. unfold filter; simpl. repeat case_decide; done.
Qed.

Lemma alerts_about_other ip ty now w ip' :
  ip' ≠ ip → alerts_about ip ty (raised_for now w ip') = [].
Proof.
  intros Hne. unfold raised_for. rewrite !alerts_about_app, !alerts_about_peak.
  repeat case_decide; try done; intuition congruence.
Qed.

Lemma alerts_about_others ip ty now w ips :
  ip ∉ ips → alerts_about ip ty (ips ≫= raised_for now w) = [].
Proof.
  induction ips as [|ip' ips IH]; intros Hnot; [done|].
  apply not_elem_of_cons in Hnot as [Hne Hnot].
  rewrite bind_cons, alerts_about_app, alerts_about_other, IH; done.
Qed.

Lemma alerts_about_nodup ip ty now w ips :
  NoDup ips → ip ∈ ips →
  alerts_about ip ty (ips ≫= raised_for now w) = alerts_about ip ty (raised_for now w ip).
Proof.
  induction 1 as [|ip' ips Hnot Hnd IH]; intros Hin; [by apply elem_of_nil in Hin|].
  rewrite bind_cons, alerts_about_app.
  destruct (decide (ip' = ip)) as [->|Hne].
  - by rewrite alerts_about_others, app_nil_r.
  - apply elem_of_cons in Hin as [?|Hin]; [congruence|].
    by rewrite alerts_about_other, IH.
Qed.

(** A breach of the outbound threshold raises one alert of that kind. *)
Lemma outbound_breach now ip w v :
  ip ∈ monitored_ips w →
  v ∈ sent (dict_get ip (bandwidth_data w)) →
  high_bandwidth (alert_thresholds w) < v →
  ∃ p, is_max_of p (sent (dict_get ip (bandwidth_data w)))
       ∧ alerts_about ip "HIGH_BANDWIDTH_OUT" (raised now w)
         = [Alert now ip "HIGH_BANDWIDTH_OUT" (msg_out p) "MEDIUM"].
Proof.
  intros Hin Hv Hlt. unfold raised.
  rewrite alerts_about_nodup; [|apply NoDup_elements | by apply elem_of_elements].
  unfold raised_for. rewrite !alerts_about_app, !alerts_about_peak.
  rewrite decide_True by done.
  rewrite decide_False by (intros [_ ?]; done).
  rewrite decide_False by (intros [_ ?]; done).
  rewrite !app_nil_r.
  destruct (sent (dict_get ip (bandwidth_data w))) as [|x xs] eqn:E;
    [by apply elem_of_nil in Hv|].
  pose proof (py_max_is_max x xs) as Hmax. exists (py_max x xs). split; [done|].
  unfold peak_alert. destruct Hmax as [_ Hall].
  rewrite Forall_forall in Hall. specialize (Hall v Hv). simpl in Hall.
  destruct (Z.ltb_spec (high_bandwidth (alert_thresholds w)) (py_max x xs)); [done | lia].
Qed.

(** C4. For a monitored target whose window holds a sample with 2,000,000
    sent bytes, with the outbound threshold at 1,000,000, one evaluation
    raises exactly one HIGH_BANDWIDTH_OUT alert for it, of severity MEDIUM;
    the alerts raised are appended to the ring in order. *)
Theorem high_bandwidth_out_alert (now : Z) (ip : string) (w : World) :
  ip ∈ monitored_ips w →
  high_bandwidth (alert_thresholds w) = 1000000 →
  2000000 ∈ sent (dict_get ip (bandwidth_data w)) →
  alerts (check_for_anomalies now w)
  = foldl (ring_append MAXLEN) (alerts w) (raised now w)
  ∧ ∃ a, alerts_about ip "HIGH_BANDWIDTH_OUT" (raised now w) = [a]
         ∧ alert_severity a = "MEDIUM"
         ∧ alert_severity a = get_alert_severity "HIGH_BANDWIDTH_OUT".
Proof.
  intros Hin Ht Hv. split; [apply check_for_anomalies_alerts|].
  destruct (outbound_breach now ip w 2000000 Hin Hv) as (p & _ & Hp); [lia|].
  eexists. split; [exact Hp|]. by split.
Qed.

Lemma high_bandwidth_out_alert_witness :
  let w := store_all "10.0.0.1" [Sample 2000000 4096 12 20]
             (set_alert_thresholds (Thresholds 1000000 1000 50)
                (run PyIpaddress.ip_address init [AddIp "10.0.0.1"])) in
  "10.0.0.1" ∈ monitored_ips w
  ∧ high_bandwidth (alert_thresholds w) = 1000000
  ∧ 2000000 ∈ sent (dict_get "10.0.0.1" (bandwidth_data w))
  ∧ alerts (check_for_anomalies 7 w)
    = [Alert 7 "10.0.0.1" "HIGH_BANDWIDTH_OUT"
         "High outbound bandwidth detected: 2000000 bytes" "MEDIUM"]
  ∧ ∃ a, alerts_about "10.0.0.1" "HIGH_BANDWIDTH_OUT" (raised 7 w) = [a]
         ∧ alert_severity a = "MEDIUM".
Proof.
  intros w.
  assert (H1 : "10.0.0.1" ∈ monitored_ips w) by (by vm_compute).
  assert (H2 : high_bandwidth (alert_thresholds w) = 1000000) by reflexivity.
  assert (H3 : 2000000 ∈ sent (dict_get "10.0.0.1" (bandwidth_data w)))
    by (vm_compute; apply elem_of_cons; by left).
  destruct (high_bandwidth_out_alert 7 "10.0.0.1" w H1 H2 H3) as (Hring & a & Ha & Hs & _).
  split; [exact H1|]. split; [exact H2|]. split; [exact H3|]. split.
  - etransitivity; [exact Hring|]. vm_compute. reflexivity.
  - exists a. split; [exact Ha | exact Hs].
Defined.

(** ** The registry *)

Lemma filter_absent (l : list string) (x : string) :
  x ∉ l → filter (λ y, y = x) l = [].
Proof.
  induction l as [|y l IH]; intros Hnot; [done|].
  apply not_elem_of_cons in Hnot as [Hne Hnot].
  rewrite filter_cons_False by congruence. by apply IH.
Qed.

Lemma once_in_elements (X : gset string) (x : string) :
  x ∈ X → length (filter (λ y, y = x) (elements X)) = 1%nat.
Proof.
  intros Hin. apply elem_of_elements in Hin.
  pose proof (NoDup_elements X) as Hnd. revert Hin.
  induction Hnd as [|y l Hnot Hnd IH]; intros Hin; [by apply elem_of_nil in Hin|].
  rewrite filter_cons. case_decide as Hy.
  - subst y. simpl. by rewrite filter_absent.
  - apply elem_of_cons in Hin as [?|Hin]; [congruence | by apply IH].
Qed.

(** C5. For a string the validator accepts, register succeeds; registering
    the same string a second time succeeds too and leaves the active set as
    it was after the first call, with the identifier in it exactly once. *)
Theorem register_idempotent (ip_address : string → bool) (ip : string) (w : World) :
  ip_address ip = true →
  (let r1 := add_ip_to_monitor ip_address ip w in
   let r2 := add_ip_to_monitor ip_address ip r1.2 in
   r1.1 = true ∧ r2.1 = true
   ∧ monitored_ips r1.2 = {[ip]} ∪ monitored_ips w
   ∧ monitored_ips r2.2 = monitored_ips r1.2
   ∧ length (filter (λ y, y = ip) (elements (monitored_ips r1.2))) = 1%nat
   ∧ length (filter (λ y, y = ip) (elements (monitored_ips r2.2))) = 1%nat).
Proof.
  intros Hok. unfold add_ip_to_monitor. rewrite Hok. simpl. rewrite ?Hok. simpl.
  assert (E : {[ip]} ∪ ({[ip]} ∪ monitored_ips w) = {[ip]} ∪ monitored_ips w).
  { apply set_eq. intros z. rewrite !elem_of_union. tauto. }
  rewrite E. repeat split; apply once_in_elements, elem_of_union_l, elem_of_singleton_2; done.
Qed.

Lemma register_idempotent_witness :
  let r1 := add_ip_to_monitor PyIpaddress.ip_address "2001:db8::1" init in
  let r2 := add_ip_to_monitor PyIpaddress.ip_address "2001:db8::1" r1.2 in
  PyIpaddress.ip_address "2001:db8::1" = true
  ∧ r2.1 = true
  ∧ elements (monitored_ips r2.2) = ["2001:db8::1"]
  ∧ length (filter (λ y, y = "2001:db8::1") (elements (monitored_ips r2.2))) = 1%nat.
Proof.
  intros r1 r2.
  assert (H : PyIpaddress.ip_address "2001:db8::1" = true) by reflexivity.
  destruct (register_idempotent PyIpaddress.ip_address "2001:db8::1" init H)
    as (_ & H2 & _ & _ & _ & Hc).
  split; [exact H|]. split; [exact H2|]. split; [|exact Hc].
  vm_compute. reflexivity.
Defined.

(** C6. For a string the validator rejects, register returns failure, logs
    the rejection and changes nothing else: the active set is as it was. *)
Theorem register_rejects_invalid (ip_address : string → bool) (ip : string) (w : World) :
  ip_address ip = false →
  (add_ip_to_monitor ip_address ip w).1 = false
  ∧ monitored_ips (add_ip_to_monitor ip_address ip w).2 = monitored_ips w
  ∧ (add_ip_to_monitor ip_address ip w).2
    = logging_error ("Invalid IP address: " +:+ ip) w.
Proof. intros Hbad. unfold add_ip_to_monitor. by rewrite Hbad. Qed.

Lemma register_rejects_invalid_witness :
  let w := (add_ip_to_monitor PyIpaddress.ip_address "10.0.0.1" init).2 in
  (PyIpaddress.ip_address "999.999.999.999" = false
   ∧ (add_ip_to_monitor PyIpaddress.ip_address "999.999.999.999" w).1 = false
   ∧ monitored_ips (add_ip_to_monitor PyIpaddress.ip_address "999.999.999.999" w).2
     = monitored_ips w)
  ∧ (PyIpaddress.ip_address "" = false
     ∧ (add_ip_to_monitor PyIpaddress.ip_address "" w).1 = false
     ∧ monitored_ips (add_ip_to_monitor PyIpaddress.ip_address "" w).2
       = monitored_ips w).
Proof.
  intros w.
  assert (H1 : PyIpaddress.ip_address "999.999.999.999" = false) by reflexivity.
  assert (H2 : PyIpaddress.ip_address "" = false) by reflexivity.
  destruct (register_rejects_invalid PyIpaddress.ip_address "999.999.999.999" w H1)
    as (A1 & B1 & _).
  destruct (register_rejects_invalid PyIpaddress.ip_address "" w H2) as (A2 & B2 & _).
  split; (split; [|split]); assumption.
Defined.

(** ** Persistence *)

Lemma add_bandwidth_log_returns fault row w :
  (add_bandwidth_log fault row w).1 = Returns ().
Proof.
  unfold add_bandwidth_log.
  by destruct (sqlite_insert fault row (bandwidth_logs w)) as [[[]|e] table].
Qed.

Lemma add_bandwidth_log_frame fault row w :
  let w' := (add_bandwidth_log fault row w).2 in
  monitoring w' = monitoring w ∧ monitored_ips w' = monitored_ips w
  ∧ bandwidth_data w' = bandwidth_data w ∧ packet_data w' = packet_data w
  ∧ data_queue w' = data_queue w ∧ threads w' = threads w
  ∧ monitoring_active w' = monitoring_active w.
Proof.
  unfold add_bandwidth_log.
  by destruct (sqlite_insert fault row (bandwidth_logs w)) as [[[]|e] table].
Qed.

Lemma store_sample_frame ip s w :
  monitoring (store_sample ip s w) = monitoring w
  ∧ monitored_ips (store_sample ip s w) = monitored_ips w
  ∧ threads (store_sample ip s w) = threads w
  ∧ data_queue (store_sample ip s w) = data_queue w
  ∧ bandwidth_logs (store_sample ip s w) = bandwidth_logs w
  ∧ monitoring_active (store_sample ip s w) = monitoring_active w.
Proof. unfold store_sample. by rewrite !defaultdict_getitem_spec. Qed.

Lemma loop_body_spec ip s fault now w :
  let r := loop_body ip s fault now w in
  r.1 = Returns ()
  ∧ monitoring r.2 = monitoring w
  ∧ monitored_ips r.2 = monitored_ips w
  ∧ threads r.2 = threads w
  ∧ data_queue r.2 = data_queue w ++ [QueueItem ip s now]
  ∧ bandwidth_data r.2 = push ip (bytes_sent s) (bytes_received s) (bandwidth_data w)
  ∧ packet_data r.2 = push ip (packets_sent s) (packets_received s) (packet_data w)
  ∧ monitoring_active r.2 = monitoring_active w.
Proof.
  unfold loop_body.
  set (row := LogRow _ _ _ _ _ _).
  pose proof (add_bandwidth_log_returns fault row (store_sample ip s w)) as Hr.
  pose proof (add_bandwidth_log_frame fault row (store_sample ip s w)) as Hf.
  destruct (add_bandwidth_log fault row (store_sample ip s w)) as [[[]|e] w1]; [|done].
  simpl in *. destruct Hf as (-> & -> & -> & -> & -> & -> & ->).
  destruct (store_sample_frame ip s w) as (-> & -> & -> & -> & _ & ->).
  by rewrite store_sample_bandwidth, store_sample_packet.
Qed.

(** C8. The append never raises to its caller, whatever SQLite does: when
    the write fails the failure is logged as an error and the method
    returns; the sampling loop then goes on with the same pass (the sample
    is in the windows and on the queue, the next target is up). *)
Theorem append_never_propagates (fault : sqlite_fault) (row : log_row) (w : World) :
  (add_bandwidth_log fault row w).1 = Returns ()
  ∧ (∀ stage e, fault = Some (stage, e) →
       logging (add_bandwidth_log fault row w).2
       = logging w ++ [(ERROR, "Error adding bandwidth log: " +:+ exn_msg e)])
  ∧ (fault = None →
       logging (add_bandwidth_log fault row w).2 = logging w
       ∧ bandwidth_logs (add_bandwidth_log fault row w).2 = bandwidth_logs w ++ [row])
  ∧ (∀ ip rest s now,
       let r := monitor_loop_step (InFor (ip :: rest)) s fault now w in
       r.1 = InFor rest
       ∧ data_queue r.2 = data_queue w ++ [QueueItem ip s now]
       ∧ bandwidth_data r.2 = push ip (bytes_sent s) (bytes_received s) (bandwidth_data w)
       ∧ packet_data r.2 = push ip (packets_sent s) (packets_received s) (packet_data w)).
Proof.
  split; [apply add_bandwidth_log_returns|]. split; [|split].
  - intros stage e ->. unfold add_bandwidth_log. by destruct stage.
  - by intros ->.
  - intros ip rest s now. simpl.
    destruct (loop_body_spec ip s fault now w) as (Hr & _ & _ & _ & Hq & Hb & Hp & _).
    by destruct (loop_body ip s fault now w) as [[[]|e] w'].
Qed.

Lemma append_never_propagates_witness :
  let fault := Some (Commit, Exn "sqlite3.OperationalError" "database is locked") in
  let row := LogRow "10.0.0.1" 1500 3000 12 20 "ethernet" in
  let r := add_bandwidth_log fault row init in
  r.1 = Returns ()
  ∧ logging r.2 = [(INFO, "Database initialized successfully");
                   (ERROR, "Error adding bandwidth log: database is locked")]
  ∧ bandwidth_logs r.2 = []
  ∧ (monitor_loop_step (InFor ["10.0.0.1"; "10.0.0.2"]) (Sample 1500 3000 12 20)
       fault 1 init).1 = InFor ["10.0.0.2"].
Proof.
  intros fault row r.
  destruct (append_never_propagates fault row init) as (H1 & H2 & _ & H4).
  split; [exact H1|]. split; [|split].
  - exact (H2 Commit _ eq_refl).
  - reflexivity.
  - exact (proj1 (H4 "10.0.0.1" ["10.0.0.2"] (Sample 1500 3000 12 20) 1)).
Defined.

(** ** Export *)

(** C9. With no monitored target, export builds the empty mapping, touches
    no window and, the file system accepting the write, stores that empty
    mapping in the timestamped file and reports success; the only way to an
    error dialog is a failure of the file system. *)
Theorem export_empty (stamp : string) (w : World) :
  monitored_ips w = ∅ →
  build_export w = ([], w)
  ∧ files (export_data stamp FsOk w) !! ("bandwidth_data_" +:+ stamp +:+ ".json") = Some []
  ∧ dialogs (export_data stamp FsOk w)
    = dialogs w ++ [ShowInfo "Success" ("Data exported to " +:+ "bandwidth_data_" +:+ stamp +:+ ".json")]
  ∧ status_var (export_data stamp FsOk w)
    = "Data exported to " +:+ "bandwidth_data_" +:+ stamp +:+ ".json"
  ∧ bandwidth_data (export_data stamp FsOk w) = bandwidth_data w
  ∧ packet_data (export_data stamp FsOk w) = packet_data w
  ∧ (∀ e, export_data stamp (FsError e) w
          = show (ShowError "Error" ("Failed to export data: " +:+ exn_msg e)) w).
Proof.
  intros Hempty.
  assert (Hb : build_export w = ([], w)).
  { unfold build_export. by rewrite Hempty, elements_empty. }
  split; [exact Hb|]. unfold export_data. rewrite Hb. simpl.
  repeat split. by rewrite lookup_insert_eq.
Qed.

Lemma export_empty_witness :
  monitored_ips init = ∅
  ∧ files (export_data "20240101_120000" FsOk init) !! "bandwidth_data_20240101_120000.json"
    = Some []
  ∧ dialogs (export_data "20240101_120000" FsOk init)
    = [ShowInfo "Success" "Data exported to bandwidth_data_20240101_120000.json"].
Proof.
  assert (H : monitored_ips init = ∅) by reflexivity.
  destruct (export_empty "20240101_120000" init H) as (_ & Hf & Hd & _).
  split; [exact H|]. split; [exact Hf | exact Hd].
Defined.

(** ** The monitoring lifecycle *)

Lemma sum_list_insert (f : pc → nat) (ts : list pc) (i : nat) (p p' : pc) :
  ts !! i = Some p →
  (sum_list (f <$> <[i := p']> ts) + f p = sum_list (f <$> ts) + f p')%nat.
Proof.
  revert i. induction ts as [|t ts IH]; intros [|i] H; simplify_eq/=; [lia|].
  specialize (IH i H). lia.
Qed.

Lemma pending_lookup w i p : threads w !! i = Some p → (pending_of p ≤ pending w)%nat.
Proof.
  intros H. unfold pending.
  pose proof (sum_list_insert pending_of _ i p Finished H). simpl in *. lia.
Qed.

(** *** Relations between two worlds *)

Lemma kept_or_cleared_refl d : kept_or_cleared d d.
Proof. intros ip. by left. Qed.

Lemma kept_or_cleared_trans d1 d2 d3 :
  kept_or_cleared d1 d2 → kept_or_cleared d2 d3 → kept_or_cleared d1 d3.
Proof.
  intros H12 H23 ip. destruct (H23 ip) as [E|E]; [|by right].
  rewrite E. apply H12.
Qed.

Lemma nothing_appended_refl w : nothing_appended w w.
Proof. repeat split; apply kept_or_cleared_refl. Qed.

Lemma nothing_appended_trans w1 w2 w3 :
  nothing_appended w1 w2 → nothing_appended w2 w3 → nothing_appended w1 w3.
Proof.
  intros (Q1 & L1 & B1 & P1) (Q2 & L2 & B2 & P2).
  split; [congruence|]. split; [congruence|].
  split; eapply kept_or_cleared_trans; eassumption.
Qed.

Lemma grows_within_trans k1 k2 k3 d1 d2 d3 :
  grows_within k1 k2 d1 d2 → grows_within k2 k3 d2 d3 → grows_within k1 k3 d1 d3.
Proof.
  intros H12 H23 ip. destruct (H12 ip), (H23 ip). split; lia.
Qed.

Lemma within_passes_refl w : within_passes w w.
Proof. repeat split; lia. Qed.

Lemma within_passes_trans w1 w2 w3 :
  within_passes w1 w2 → within_passes w2 w3 → within_passes w1 w3.
Proof.
  intros (Q1 & L1 & B1 & P1) (Q2 & L2 & B2 & P2).
  split; [lia|]. split; [lia|].
  split; eapply grows_within_trans; eassumption.
Qed.

(** A step that leaves queue, table and windows alone, and the passes in
    progress as they were. *)
Lemma quiet_within w w' :
  quiet w w' → pending w' = pending w → within_passes w w' ∧ nothing_appended w w'.
Proof.
  intros (Q & L & B & P) Hp. split.
  - split; [by rewrite Q, Hp|]. split; [by rewrite L, Hp|].
    split; intros ip; rewrite ?B, ?P, Hp; lia.
  - split; [done|]. split; [done|]. split; intros ip; left; auto.
Qed.

Lemma quiet_refl w : quiet w w.
Proof. by repeat split. Qed.

Lemma quiet_trans w1 w2 w3 : quiet w1 w2 → quiet w2 w3 → quiet w1 w3.
Proof.
  intros (Q1 & L1 & B1 & P1) (Q2 & L2 & B2 & P2).
  split; [congruence|]. split; [congruence|].
  split; intros ip; [rewrite B2 | rewrite P2]; auto.
Qed.

(** *** The commands of the user while the flag is down *)

Lemma dict_get_insert_ne ip ip' win d :
  ip ≠ ip' → dict_get ip' (<[ip := win]> d) = dict_get ip' d.
Proof. intros Hne. unfold dict_get. by rewrite lookup_insert_ne. Qed.

Lemma dict_get_touch ip ip' d : dict_get ip' (<[ip := dict_get ip d]> d) = dict_get ip' d.
Proof.
  destruct (decide (ip = ip')) as [->|Hne]; [apply dict_get_insert|].
  by apply dict_get_insert_ne.
Qed.

Lemma export_one_quiet acc ip :
  quiet acc.2 (export_one acc ip).2 ∧ threads (export_one acc ip).2 = threads acc.2.
Proof.
  destruct acc as [doc w]. unfold export_one.
  rewrite !defaultdict_getitem_spec. simpl.
  split; [|done]. split; [done|]. split; [done|].
  split; intros ip'; simpl; by rewrite !dict_get_touch.
Qed.

Lemma build_export_quiet w :
  quiet w (build_export w).2 ∧ threads (build_export w).2 = threads w.
Proof.
  unfold build_export. generalize (elements (monitored_ips w)).
  generalize (@nil (string * export_entry)). intros doc ips. revert doc w.
  induction ips as [|ip ips IH]; intros doc w; cbn [foldl].
  - split; [apply quiet_refl | done].
  - destruct (export_one_quiet (doc, w) ip) as [H1 H2].
    destruct (export_one (doc, w) ip) as [doc' w']. simpl in H1, H2.
    destruct (IH doc' w') as [G1 G2]. simpl in G1, G2.
    split; [eapply quiet_trans; [exact H1 | exact G1] | by rewrite <- H2].
Qed.

Lemma check_peak_logs now ip d t ty m w :
  bandwidth_logs (check_peak now ip d t ty m w) = bandwidth_logs w.
Proof.
  unfold check_peak. destruct d as [|x xs]; [done|].
  by destruct (t <? py_max x xs).
Qed.

Lemma check_for_anomalies_logs now w :
  bandwidth_logs (check_for_anomalies now w) = bandwidth_logs w.
Proof.
  unfold check_for_anomalies. generalize (elements (monitored_ips w)). intros ips.
  revert w. induction ips as [|ip ips IH]; intros w; cbn [foldl]; [done|].
  rewrite IH. unfold check_ip. by rewrite !check_peak_logs.
Qed.

Lemma check_for_anomalies_quiet now w :
  quiet w (check_for_anomalies now w)
  ∧ threads (check_for_anomalies now w) = threads w
  ∧ monitoring_active (check_for_anomalies now w) = monitoring_active w.
Proof.
  destruct (foldl_check_ip_frame now (elements (monitored_ips w)) w)
    as (Hb & Hp & _ & _ & _ & Ht & Hq & Ha).
  fold (check_for_anomalies now w) in *.
  split; [|by split]. split; [done|]. split; [apply check_for_anomalies_logs|].
  split; intros ip; [by rewrite <- Hb | by rewrite <- Hp].
Qed.

(** *** A step of a thread while the flag is down *)

Lemma deque_append_grows n d x : (length (deque_append n d x) ≤ length d + 1)%nat.
Proof.
  unfold deque_append. case_decide; [rewrite length_drop|]; rewrite length_app; simpl; lia.
Qed.

Lemma push_grows ip a b d ip' :
  (length (sent (dict_get ip' (push ip a b d))) ≤ length (sent (dict_get ip' d)) + 1)%nat
  ∧ (length (received (dict_get ip' (push ip a b d)))
     ≤ length (received (dict_get ip' d)) + 1)%nat.
Proof.
  unfold push. destruct (decide (ip = ip')) as [->|Hne].
  - rewrite dict_get_insert. simpl. split; apply deque_append_grows.
  - rewrite !dict_get_insert_ne by done. lia.
Qed.

Lemma loop_body_logs ip s fault now w :
  (length (bandwidth_logs (loop_body ip s fault now w).2) ≤ length (bandwidth_logs w) + 1)%nat.
Proof.
  unfold loop_body, add_bandwidth_log.
  destruct (store_sample_frame ip s w) as (_ & _ & _ & _ & E & _). rewrite E.
  destruct fault as [[[] e]|]; simpl; rewrite ?length_app; simpl; lia.
Qed.

(** What one step of a thread does when the flag is down: it moves one step
    closer to its end, and either appends nothing or stores the sample of
    the next target of its pass. *)
Lemma monitor_loop_step_down p s fault now w :
  monitoring w = false →
  let r := monitor_loop_step p s fault now w in
  monitoring r.2 = false
  ∧ monitoring_active r.2 = monitoring_active w
  ∧ threads r.2 = threads w
  ∧ (remaining_of r.1 = remaining_of p - 1)%nat
  ∧ ((pending_of r.1 = pending_of p ∧ quiet w r.2)
     ∨ ((pending_of r.1 + 1 = pending_of p)%nat
        ∧ (length (data_queue r.2) = length (data_queue w) + 1)%nat
        ∧ (length (bandwidth_logs r.2) ≤ length (bandwidth_logs w) + 1)%nat
        ∧ grows_within 1 0 (bandwidth_data w) (bandwidth_data r.2)
        ∧ grows_within 1 0 (packet_data w) (packet_data r.2))).
Proof.
  intros Hm. destruct p as [|[|ip rest]| |]; simpl; rewrite ?Hm; simpl.
  - repeat split; try done. left. split; [done | apply quiet_refl].
  - repeat split; try done. left. split; [done | apply quiet_refl].
  - destruct (loop_body_spec ip s fault now w) as (Hr & H1 & _ & H3 & H4 & H5 & H6 & H7).
    pose proof (loop_body_logs ip s fault now w) as H8.
    destruct (loop_body ip s fault now w) as [[[]|e] w']; [|done]. simpl in *.
    split; [congruence|]. split; [done|]. split; [done|]. split; [lia|].
    right. split; [lia|]. split; [rewrite H4, length_app; simpl; lia|]. split; [done|].
    split; intros ip'; [rewrite H5 | rewrite H6];
      destruct (push_grows ip (bytes_sent s) (bytes_received s) (bandwidth_data w) ip');
      destruct (push_grows ip (packets_sent s) (packets_received s) (packet_data w) ip');
      split; lia.
  - repeat split; try done. left. split; [done | apply quiet_refl].
  - repeat split; try done. left. split; [done | apply quiet_refl].
Qed.

Lemma thread_step_down ip_address w i s fault now :
  monitoring w = false →
  let w' := step ip_address w (ThreadStep i s fault now) in
  monitoring w' = false
  ∧ monitoring_active w' = monitoring_active w
  ∧ within_passes w w'
  ∧ (pending w = 0%nat → nothing_appended w w')
  ∧ (∀ p, threads w !! i = Some p → p ≠ Finished → (remaining w' + 1 = remaining w)%nat).
Proof.
  intros Hm. simpl. destruct (threads w !! i) as [p|] eqn:E.
  2:{ split; [done|]. split; [done|]. split; [apply within_passes_refl|].
      split; [intros; apply nothing_appended_refl | done]. }
  destruct (monitor_loop_step_down p s fault now w Hm) as (H1 & H2 & H3 & H4 & H5).
  destruct (monitor_loop_step p s fault now w) as [p' w1]. simpl in *.
  pose proof (sum_list_insert pending_of _ i p p' E) as Hpend.
  pose proof (sum_list_insert remaining_of _ i p p' E) as Hrem.
  assert (Hp' : (pending (set_threads (<[i:=p']> (threads w1)) w1) + pending_of p
                 = pending w + pending_of p')%nat).
  { unfold pending. simpl. by rewrite H3. }
  split; [done|]. split; [done|].
  assert (Hq : ∀ w2, quiet w w1 → quiet w (set_threads w2 w1)) by (intros ? H; exact H).
  split; [|split].
  - destruct H5 as [[Hpp Hquiet] | (Hpp & Hlq & Hll & Hb & Hk)].
    + apply quiet_within; [by apply Hq | lia].
    + split; [simpl; lia|]. split; [simpl; lia|].
      split; intros ip; simpl; [destruct (Hb ip) | destruct (Hk ip)]; split; lia.
  - intros H0. destruct H5 as [[Hpp Hquiet] | (Hpp & _)].
    + apply quiet_within; [by apply Hq | lia].
    + pose proof (pending_lookup w i p E). lia.
  - intros p0 [= <-] Hne. unfold remaining. simpl. rewrite H3.
    destruct p as [|rest| |]; simpl in *; try done; lia.
Qed.


(** The flag of the monitor and the variable of the GUI move together. *)
Lemma export_one_flags acc ip :
  monitoring (export_one acc ip).2 = monitoring acc.2
  ∧ monitoring_active (export_one acc ip).2 = monitoring_active acc.2.
Proof.
  destruct acc as [doc w]. unfold export_one. by rewrite !defaultdict_getitem_spec.
Qed.

Lemma build_export_flags w :
  monitoring (build_export w).2 = monitoring w
  ∧ monitoring_active (build_export w).2 = monitoring_active w.
Proof.
  unfold build_export. generalize (elements (monitored_ips w)).
  generalize (@nil (string * export_entry)). intros doc ips. revert doc w.
  induction ips as [|ip ips IH]; intros doc w; cbn [foldl]; [done|].
  destruct (export_one_flags (doc, w) ip) as [H1 H2].
  destruct (export_one (doc, w) ip) as [doc' w']. simpl in H1, H2.
  destruct (IH doc' w') as [G1 G2]. simpl in G1, G2.
  split; [rewrite <- H1; exact G1 | rewrite <- H2; exact G2].
Qed.

Lemma step_flags ip_address w e :
  monitoring w = monitoring_active w →
  monitoring (step ip_address w e) = monitoring_active (step ip_address w e).
Proof.
  intros H. destruct e as [ip|ip| |c|stamp fs|now|i s fault now]; simpl.
  - unfold add_ip_to_monitor. by destruct (ip_address ip).
  - done.
  - unfold toggle_monitoring. destruct (negb _); [case_decide|]; done.
  - by destruct c.
  - unfold export_data. destruct (build_export_flags w) as [H1 H2].
    destruct (build_export w) as [doc w']. simpl in *. destruct fs; simpl; congruence.
  - unfold check_for_anomalies.
    destruct (foldl_check_ip_frame now (elements (monitored_ips w)) w)
      as (_ & _ & _ & _ & <- & _ & _ & <-). done.
  - destruct (threads w !! i) as [p|]; [|done].
    assert (monitoring (monitor_loop_step p s fault now w).2 = monitoring w
            ∧ monitoring_active (monitor_loop_step p s fault now w).2 = monitoring_active w)
      as [H1 H2].
    { destruct p as [|[|ip rest]| |]; simpl; try done.
      - by destruct (monitoring w) eqn:E.
      - destruct (loop_body_spec ip s fault now w) as (Hr & H1 & _ & _ & _ & _ & _ & H7).
        destruct (loop_body ip s fault now w) as [[[]|e] w']; [|done].
        by split. }
    destruct (monitor_loop_step p s fault now w) as [p' w']. simpl in *. congruence.
Qed.

(** Every state the process reaches is Idle or Running. *)
Lemma reachable_lifecycle ip_address evs :
  Idle (run ip_address init evs) ∨ Running (run ip_address init evs).
Proof.
  assert (H : monitoring (run ip_address init evs) = monitoring_active (run ip_address init evs)).
  { unfold run. assert (H0 : monitoring init = monitoring_active init) by done.
    revert H0. generalize init. induction evs as [|e evs IH]; intros w H0; [done|].
    cbn [foldl]. by apply IH, step_flags. }
  unfold Idle, Running. destruct (monitoring _); rewrite <- H; auto.
Qed.

(** *** Any step while the flag stays down *)

Lemma idle_step ip_address w e :
  Idle w →
  monitoring (step ip_address w e) = false →
  Idle (step ip_address w e)
  ∧ within_passes w (step ip_address w e)
  ∧ (pending w = 0%nat → nothing_appended w (step ip_address w e)).
Proof.
  intros [Hm Ha] Hm'.
  assert (Hquiet : ∀ w', quiet w w' → threads w' = threads w →
                         within_passes w w' ∧ (pending w = 0%nat → nothing_appended w w')).
  { intros w' Hq Ht.
    destruct (quiet_within w w' Hq) as [? ?]; [unfold pending; by rewrite Ht|]. by split. }
  destruct e as [ip|ip| |c|stamp fs|now|i s fault now].
  - simpl. unfold add_ip_to_monitor.
    destruct (ip_address ip); simpl; (split; [by split|]); apply Hquiet; by repeat split.
  - simpl. split; [by split|]. apply Hquiet; by repeat split.
  - simpl in *. unfold toggle_monitoring in *. rewrite Ha in *. simpl in *.
    case_decide; [|discriminate Hm'].
    split; [by split|]. apply Hquiet; by repeat split.
  - simpl. destruct c; simpl.
    + split; [by split|]. split.
      * split; [done|]. split; [done|].
        split; intros ip; unfold pending, dict_get; simpl; rewrite lookup_empty; simpl; lia.
      * intros _. split; [done|]. split; [done|]. split; intros ip; by right.
    + split; [by split|]. apply Hquiet; [apply quiet_refl | done].
  - simpl in *. unfold export_data in *.
    destruct (build_export_quiet w) as [Hq Ht].
    destruct (build_export_flags w) as [F1 F2].
    destruct (build_export w) as [doc w1]. simpl in Hq, Ht, F1, F2.
    destruct fs; simpl in *.
    + split; [unfold Idle; simpl; split; congruence|]. apply Hquiet; [exact Hq | exact Ht].
    + split; [unfold Idle; simpl; split; congruence|]. apply Hquiet; [exact Hq | exact Ht].
  - simpl in *. destruct (check_for_anomalies_quiet now w) as (Hq & Ht & Hact).
    split; [unfold Idle; split; congruence|]. by apply Hquiet.
  - destruct (thread_step_down ip_address w i s fault now Hm) as (H1 & H2 & H3 & H4 & _).
    split; [unfold Idle; split; congruence|]. by split.
Qed.

Lemma stays_down_head ip_address w evs :
  stays_down ip_address w evs = true → monitoring w = false.
Proof. destruct evs; simpl; intros H; [|apply andb_prop in H as [H _]]; by destruct (monitoring w). Qed.

Lemma stays_down_app ip_address evs1 evs2 w :
  stays_down ip_address w (evs1 ++ evs2) = true →
  stays_down ip_address w evs1 = true
  ∧ stays_down ip_address (run ip_address w evs1) evs2 = true.
Proof.
  unfold run. revert w. induction evs1 as [|e evs1 IH]; intros w H; cbn [foldl app].
  - split; [|done]. simpl. by rewrite (stays_down_head _ _ _ H).
  - cbn [app stays_down] in H. apply andb_prop in H as [H1 H2].
    destruct (IH _ H2) as [G1 G2]. split; [|done].
    cbn [stays_down]. by rewrite H1, G1.
Qed.

Lemma pending_stays_zero w w' :
  within_passes w w' → nothing_appended w w' → pending w = 0%nat → pending w' = 0%nat.
Proof. intros (Q & _) (E & _) H0. rewrite E in Q. lia. Qed.

(** A run during which the flag stays down: the state stays Idle, only
    samples of the passes in progress are appended, and none when no pass
    is in progress. *)
Lemma idle_run ip_address evs w :
  Idle w →
  stays_down ip_address w evs = true →
  Idle (run ip_address w evs)
  ∧ within_passes w (run ip_address w evs)
  ∧ (pending w = 0%nat → nothing_appended w (run ip_address w evs)).
Proof.
  unfold run. revert w. induction evs as [|e evs IH]; intros w Hidle Hdown; cbn [foldl].
  - split; [done|]. split; [apply within_passes_refl|]. intros _. apply nothing_appended_refl.
  - cbn [stays_down] in Hdown. apply andb_prop in Hdown as [_ Hdown].
    pose proof (stays_down_head _ _ _ Hdown) as Hm'.
    destruct (idle_step ip_address w e Hidle Hm') as (I1 & W1 & N1).
    destruct (IH _ I1 Hdown) as (I2 & W2 & N2).
    split; [done|]. split; [eapply within_passes_trans; eassumption|].
    intros H0. eapply nothing_appended_trans; [by apply N1|].
    apply N2. eapply pending_stays_zero; eauto.
Qed.

(** *** The threads end *)

Lemma sum_list_pos (l : list nat) n :
  sum_list l = S n → ∃ i x, l !! i = Some x ∧ (0 < x)%nat.
Proof.
  revert n. induction l as [|y l IH]; intros n H; [done|]. simpl in H.
  destruct y as [|y].
  - destruct (IH n H) as (i & x & Hi & Hx). by exists (S i), x.
  - exists 0%nat, (S y). split; [done | lia].
Qed.

Lemma sum_list_zero (l : list nat) : sum_list l = 0%nat → Forall (λ x, x = 0%nat) l.
Proof.
  induction l as [|y l IH]; intros H; [constructor|]. simpl in H.
  constructor; [lia | apply IH; lia].
Qed.

Lemma all_finished w :
  remaining w = 0%nat → Forall (λ p, p = Finished) (threads w) ∧ pending w = 0%nat.
Proof.
  unfold remaining, pending. intros H. apply sum_list_zero in H.
  rewrite Forall_fmap in H.
  assert (HF : Forall (λ p, p = Finished) (threads w)).
  { eapply Forall_impl; [exact H|]. intros [|rest| |]; simpl; intros; try done; lia. }
  split; [exact HF|]. clear H.
  induction HF as [|p l Hp Hl IH]; [done|]. subst p. simpl. exact IH.
Qed.

(** With the flag down, scheduling the threads lets every one of them end,
    in as many steps as their passes, sleeps and tests take. *)
Lemma threads_end ip_address w :
  monitoring w = false →
  ∃ tevs, forallb is_thread_step tevs = true
          ∧ length tevs = remaining w
          ∧ stays_down ip_address w tevs = true
          ∧ Forall (λ p, p = Finished) (threads (run ip_address w tevs))
          ∧ pending (run ip_address w tevs) = 0%nat.
Proof.
  remember (remaining w) as n eqn:Hn. revert w Hn.
  induction n as [|n IH]; intros w Hn Hm.
  - exists []. destruct (all_finished w) as [H1 H2]; [done|].
    repeat split; try done. simpl. by rewrite Hm.
  - symmetry in Hn. unfold remaining in Hn.
    destruct (sum_list_pos _ _ Hn) as (i & x & Hi & Hx).
    rewrite list_lookup_fmap in Hi. destruct (threads w !! i) as [p|] eqn:E; [|done].
    simpl in Hi. injection Hi as <-.
    assert (Hne : p ≠ Finished) by (intros ->; simpl in Hx; lia).
    set (e := ThreadStep i (Sample 0 0 0 0) None 0).
    destruct (thread_step_down ip_address w i (Sample 0 0 0 0) None 0 Hm)
      as (H1 & _ & _ & _ & H5).
    specialize (H5 p E Hne). fold (remaining w) in Hn.
    destruct (IH (step ip_address w e)) as (tevs & T1 & T2 & T3 & T4 & T5);
      [subst e; lia | exact H1 |].
    exists (e :: tevs). split; [done|]. split; [simpl; lia|].
    split; [cbn [stays_down]; by rewrite Hm, T3 | by split].
Qed.

(** The stop is cooperative: the user stops monitoring while the thread is
    inside its pass over the targets; both flags are down, and the thread
    still stores the sample of the target that is left in the pass. *)
Lemma stop_mid_pass_still_samples :
  let w := run PyIpaddress.ip_address init
             [AddIp "10.0.0.1"; Toggle; ThreadStep 0 (Sample 0 0 0 0) None 0] in
  let stopped := toggle_monitoring w in
  let later := step PyIpaddress.ip_address stopped
                 (ThreadStep 0 (Sample 1500 3000 12 20) None 5) in
  Running w
  ∧ threads w = [InFor ["10.0.0.1"]]
  ∧ Idle stopped
  ∧ bandwidth_data stopped !! "10.0.0.1" = None
  ∧ data_queue stopped = []
  ∧ bandwidth_data later !! "10.0.0.1" = Some (Window [1500] [3000])
  ∧ data_queue later = [QueueItem "10.0.0.1" (Sample 1500 3000 12 20) 5].
Proof. vm_compute. repeat split; reflexivity. Qed.

(** C7. Starting with no registered target is refused with a warning and
    changes nothing else: the state stays Idle, the monitoring flag false.
    Starting with at least one target takes Idle to Running and starts the
    sampling thread. Stopping takes Running to Idle and appends nothing
    itself. The stop is cooperative: scheduled, the threads run to the end
    of the passes in progress and end; whatever happens meanwhile, short
    of monitoring being started again, the state stays Idle and only
    samples of those passes are appended. Once no pass is in progress, the
    transition is complete, and from then on no sample is appended to the
    queue, to the table or to any window, until monitoring is started
    again. *)
Theorem monitoring_lifecycle (ip_address : string → bool) (w : World) :
  (Idle w → monitored_ips w = ∅ →
   toggle_monitoring w
   = show (ShowWarning "Warning" "Please add at least one IP address to monitor") w
   ∧ Idle (toggle_monitoring w)
   ∧ threads (toggle_monitoring w) = threads w)
  ∧ (Idle w → monitored_ips w ≠ ∅ →
     Running (toggle_monitoring w)
     ∧ threads (toggle_monitoring w) = threads w ++ [AtWhile])
  ∧ (Running w →
     Idle (toggle_monitoring w)
     ∧ threads (toggle_monitoring w) = threads w
     ∧ same_data w (toggle_monitoring w)
     ∧ (∃ tevs, forallb is_thread_step tevs = true
                ∧ length tevs = remaining (toggle_monitoring w)
                ∧ stays_down ip_address (toggle_monitoring w) tevs = true
                ∧ Forall (λ p, p = Finished)
                    (threads (run ip_address (toggle_monitoring w) tevs))
                ∧ pending (run ip_address (toggle_monitoring w) tevs) = 0%nat)
     ∧ (∀ evs, stays_down ip_address (toggle_monitoring w) evs = true →
          Idle (run ip_address (toggle_monitoring w) evs)
          ∧ within_passes (toggle_monitoring w) (run ip_address (toggle_monitoring w) evs))
     ∧ (∀ evs1 evs2,
          stays_down ip_address (toggle_monitoring w) (evs1 ++ evs2) = true →
          pending (run ip_address (toggle_monitoring w) evs1) = 0%nat →
          nothing_appended (run ip_address (toggle_monitoring w) evs1)
            (run ip_address (toggle_monitoring w) (evs1 ++ evs2)))).
Proof.
  split; [|split].
  - intros [Hm Ha] Hempty. unfold toggle_monitoring.
    rewrite Ha. simpl. rewrite decide_True by done. by repeat split.
  - intros [Hm Ha] Hne. unfold toggle_monitoring.
    rewrite Ha. simpl. rewrite decide_False by done. by repeat split.
  - intros [Hm Ha].
    assert (E : toggle_monitoring w
                = set_status_var "Monitoring stopped"
                    (set_monitoring_active false (stop_monitoring w))).
    { unfold toggle_monitoring. by rewrite Ha. }
    rewrite E. set (stopped := set_status_var _ _).
    assert (Hidle : Idle stopped) by (by split).
    split; [done|]. split; [done|]. split; [by repeat split|].
    split; [apply threads_end; apply Hidle|]. split.
    + intros evs Hdown. destruct (idle_run ip_address evs stopped Hidle Hdown) as (I & W & _).
      by split.
    + intros evs1 evs2 Hdown H0.
      destruct (stays_down_app _ _ _ _ Hdown) as [D1 D2].
      destruct (idle_run ip_address evs1 stopped Hidle D1) as (I1 & _ & _).
      destruct (idle_run ip_address evs2 _ I1 D2) as (_ & _ & N).
      unfold run in *. rewrite foldl_app. by apply N.
Qed.

Lemma monitoring_lifecycle_witness :
  let registered := run PyIpaddress.ip_address init [AddIp "10.0.0.1"] in
  let in_pass := run PyIpaddress.ip_address init
                   [AddIp "10.0.0.1"; Toggle; ThreadStep 0 (Sample 0 0 0 0) None 0] in
  let stopped := toggle_monitoring in_pass in
  let finish := [ThreadStep 0 (Sample 1500 3000 12 20) None 5;
                 ThreadStep 0 (Sample 1600 3100 13 21) None 6;
                 ThreadStep 0 (Sample 1700 3200 14 22) None 7;
                 ThreadStep 0 (Sample 1800 3300 15 23) None 8] in
  let later := [ThreadStep 0 (Sample 1900 3400 16 24) None 9;
                AddIp "10.0.0.2";
                ExportData "20240101_120000" FsOk;
                CheckAnomalies 10;
                RemoveIp "10.0.0.1"] in
  (Idle init ∧ monitored_ips init = ∅ ∧ Idle (toggle_monitoring init))
  ∧ (Idle registered ∧ monitored_ips registered ≠ ∅
     ∧ Running (toggle_monitoring registered))
  ∧ (Running in_pass
     ∧ stays_down PyIpaddress.ip_address stopped (finish ++ later) = true
     ∧ pending (run PyIpaddress.ip_address stopped finish) = 0%nat
     ∧ Idle (run PyIpaddress.ip_address stopped (finish ++ later))
     ∧ within_passes stopped (run PyIpaddress.ip_address stopped (finish ++ later))
     ∧ nothing_appended (run PyIpaddress.ip_address stopped finish)
         (run PyIpaddress.ip_address stopped (finish ++ later))).
Proof.
  intros registered in_pass stopped finish later.
  assert (A1 : Idle init) by (split; reflexivity).
  assert (A2 : monitored_ips init = ∅) by reflexivity.
  assert (B1 : Idle registered) by (split; reflexivity).
  assert (B2 : monitored_ips registered ≠ ∅).
  { apply (non_empty_inhabited_L "10.0.0.1").
    change (monitored_ips registered) with ({["10.0.0.1"]} ∪ (∅ : gset string)).
    apply elem_of_union_l, elem_of_singleton. reflexivity. }
  assert (C1 : Running in_pass) by (split; reflexivity).
  assert (C2 : stays_down PyIpaddress.ip_address stopped (finish ++ later) = true)
    by (vm_compute; reflexivity).
  assert (C3 : pending (run PyIpaddress.ip_address stopped finish) = 0%nat)
    by (vm_compute; reflexivity).
  split; [|split].
  - destruct (proj1 (monitoring_lifecycle PyIpaddress.ip_address init) A1 A2) as (_ & H & _).
    split; [exact A1|]. split; [exact A2 | exact H].
  - destruct (proj1 (proj2 (monitoring_lifecycle PyIpaddress.ip_address registered)) B1 B2)
      as (H & _).
    split; [exact B1|]. split; [exact B2 | exact H].
  - destruct (proj2 (proj2 (monitoring_lifecycle PyIpaddress.ip_address in_pass)) C1)
      as (_ & _ & _ & _ & Hrun & Hafter).
    destruct (Hrun (finish ++ later) C2) as (HI & HW).
    split; [exact C1|]. split; [exact C2|]. split; [exact C3|].
    split; [exact HI|]. split; [exact HW|].
    exact (Hafter finish later C2 C3).
Defined.
(** ** Trend *)

(** With two or more sent-byte values the label is read off the sign of the
    slope that NumPy returned for the fit against the sample indices
    0, 1, ..., n-1; the report carries that slope. What the slope is for a
    given series is decided inside NumPy, in floating point. *)
Lemma trend_follows_slope (polyfit_slope : list Z → list Z → Q) (ip : string) (w : World) :
  let ys := sent (dict_get ip (bandwidth_data w)) in
  let m := polyfit_slope (seqZ 0 (Z.of_nat (length ys))) ys in
  (2 ≤ length ys)%nat →
  slope (get_bandwidth_trend polyfit_slope ip w) = PyFloat m
  ∧ ((0 < m)%Q → trend (get_bandwidth_trend polyfit_slope ip w) = "increasing")
  ∧ ((m < 0)%Q → trend (get_bandwidth_trend polyfit_slope ip w) = "decreasing")
  ∧ ((m == 0)%Q → trend (get_bandwidth_trend polyfit_slope ip w) = "stable").
Proof.
  intros ys m Hlen. unfold get_bandwidth_trend. fold ys.
  rewrite decide_False by lia.
  rewrite decide_True by (rewrite length_seqZ; lia).
  fold m. destruct (m ?= 0)%Q eqn:E; simpl.
  - apply Qeq_alt in E. split; [done|]. repeat split; try done.
    + intros H. rewrite E in H. by apply Qlt_irrefl in H.
    + intros H. rewrite E in H. by apply Qlt_irrefl in H.
  - apply Qlt_alt in E. split; [done|]. repeat split; try done.
    + intros H. destruct (Qlt_irrefl m (Qlt_trans _ _ _ E H)).
    + intros H. rewrite H in E. by apply Qlt_irrefl in E.
  - apply Qgt_alt in E. split; [done|]. repeat split; try done.
    + intros H. destruct (Qlt_irrefl m (Qlt_trans _ _ _ H E)).
    + intros H. rewrite H in E. by apply Qlt_irrefl in E.
Qed.
